(** * Dog API backend (app.py): a shallow embedding and its properties

    The Flask application [app.py] serves a "dogs" inventory kept in an
    external record store.  This development embeds

    - the Python values the handlers manipulate (JSON data, dictionaries,
      the numeric tower with its exceptions),
    - the handlers [dashboard], [get_dogs], [add_dogs], [admin_login] and
      [admin_dogs] as programs that perform at most one call to the record
      store,

    and states the properties of the statistics aggregator, of the query
    builder and of the admin endpoints as theorems. *)

From Stdlib Require Import ZArith List String Ascii Bool Lia Permutation Sorted.
From Stdlib Require Import QArith Qpower.
From Stdlib Require Import Floats.SpecFloat.
Import ListNotations.

Local Open Scope list_scope.
Local Open Scope string_scope.
Local Open Scope Z_scope.

Set Warnings "-register-all".

(** ** Python values *)

Module Py.

(** Python's [float] is IEEE 754 binary64; [spec_float] at precision 53 and
    maximal exponent 1024 is its specification. *)
Definition float := spec_float.
Definition prec : Z := 53.
Definition emax : Z := 1024.

(** The values a JSON document decodes to. *)
Inductive value : Type :=
| VNone
| VBool (b : bool)
| VInt (n : Z)
| VFloat (f : float)
| VStr (s : string)
| VList (l : list value)
| VDict (d : list (string * value)).

(** A JSON object: string keys in insertion order. *)
Definition dict : Type := list (string * value).

(** The exceptions the handlers can meet. *)
Inductive exn : Type :=
| TypeError (msg : string)
| AttributeError (msg : string)
| OverflowError (msg : string)
| ZeroDivisionError (msg : string)
| HTTPException (code : Z) (msg : string)
| StoreError (msg : string)
| Exception (msg : string).

(** [str(e)] *)
Definition str_exn (e : exn) : string :=
  match e with
  | TypeError m | AttributeError m | OverflowError m
  | ZeroDivisionError m | HTTPException _ m | StoreError m | Exception m => m
  end.

(** A computation that returns or raises. *)
Inductive except (A : Type) : Type :=
| Ok (a : A)
| Raise (e : exn).
Arguments Ok {A} a.
Arguments Raise {A} e.

Definition bind {A B : Type} (c : except A) (k : A -> except B) : except B :=
  match c with
  | Ok a => k a
  | Raise e => Raise e
  end.

Declare Scope except_scope.
Delimit Scope except_scope with except.
Notation "x <- c ;; k" := (bind c (fun x => k))
  (at level 61, c at next level, right associativity) : except_scope.
Notation "' pat <- c ;; k" := (bind c (fun x => match x with pat => k end))
  (at level 61, pat pattern, c at next level, right associativity) : except_scope.

(** [type(v).__name__] *)
Definition type_name (v : value) : string :=
  match v with
  | VNone => "NoneType"
  | VBool _ => "bool"
  | VInt _ => "int"
  | VFloat _ => "float"
  | VStr _ => "str"
  | VList _ => "list"
  | VDict _ => "dict"
  end.

(** [bool(v)]: None, False, zero, and empty strings and containers are
    falsy. *)
Definition truthy (v : value) : bool :=
  match v with
  | VNone => false
  | VBool b => b
  | VInt n => negb (n =? 0)
  | VFloat (S754_zero _) => false
  | VFloat _ => true
  | VStr s => negb (String.eqb s "")
  | VList l => match l with [] => false | _ => true end
  | VDict d => match d with [] => false | _ => true end
  end.

(** *** Dictionaries with string keys *)

(** [d.get(k)] on the entries of a JSON object, [None] when absent *)
Fixpoint dict_find (k : string) (d : dict) : option value :=
  match d with
  | [] => None
  | (k', v) :: rest => if String.eqb k' k then Some v else dict_find k rest
  end.

(** [d.get(k, default)] *)
Definition dict_get_default (d : dict) (k : string) (default : value) : value :=
  match dict_find k d with
  | Some v => v
  | None => default
  end.

(** [d.get(k)] *)
Definition dict_get (d : dict) (k : string) : value :=
  dict_get_default d k VNone.

(** [v.get(k)] on a decoded JSON document: only objects have [get]. *)
Definition get (v : value) (k : string) : except value :=
  match v with
  | VDict d => Ok (dict_get d k)
  | _ => Raise (AttributeError
                  ("'" ++ type_name v ++ "' object has no attribute 'get'"))
  end.

(** [v.items()] *)
Definition items (v : value) : except dict :=
  match v with
  | VDict d => Ok d
  | _ => Raise (AttributeError
                  ("'" ++ type_name v ++ "' object has no attribute 'items'"))
  end.

(** *** Numbers *)

(** [float(n)] for an int: rounded to nearest even, OverflowError when the
    result is not finite. *)
Definition float_of_int (n : Z) : except float :=
  match binary_normalize prec emax n 0 false with
  | S754_infinity _ => Raise (OverflowError "int too large to convert to float")
  | f => Ok f
  end.

(** [a / b] on ints: the correctly rounded quotient.  The quotient is taken
    with at least 55 significant bits and a sticky bit, then rounded once. *)
Definition int_truediv (a b : Z) : except float :=
  if b =? 0 then Raise (ZeroDivisionError "division by zero")
  else
    let negate := xorb (a <? 0) (b <? 0) in
    if a =? 0 then Ok (S754_zero negate)
    else
      let k := Z.max 0 (Z.log2 (Z.abs b) - Z.log2 (Z.abs a) + 57) in
      let (q, r) := Z.div_eucl (Z.abs a * 2 ^ k) (Z.abs b) in
      let m := 2 * q + (if r =? 0 then 0 else 1) in
      match binary_normalize prec emax (cond_Zopp negate m) (- k - 1) negate with
      | S754_infinity _ =>
          Raise (OverflowError "integer division result too large for a float")
      | f => Ok f
      end.

(** The number a value stands for in arithmetic: bool is a subtype of int. *)
Inductive number : Type :=
| NInt (n : Z)
| NFloat (f : float).

Definition as_number (v : value) : option number :=
  match v with
  | VBool b => Some (NInt (Z.b2z b))
  | VInt n => Some (NInt n)
  | VFloat f => Some (NFloat f)
  | _ => None
  end.

Definition unsupported (op : string) (a b : value) : exn :=
  TypeError ("unsupported operand type(s) for " ++ op ++ ": '"
             ++ type_name a ++ "' and '" ++ type_name b ++ "'").

(** [a += b] *)
Definition iadd (a b : value) : except value :=
  match as_number a, as_number b with
  | Some (NInt x), Some (NInt y) => Ok (VInt (x + y))
  | Some (NFloat x), Some (NFloat y) => Ok (VFloat (SFadd prec emax x y))
  | Some (NInt x), Some (NFloat y) =>
      (fx <- float_of_int x ;; Ok (VFloat (SFadd prec emax fx y)))%except
  | Some (NFloat x), Some (NInt y) =>
      (fy <- float_of_int y ;; Ok (VFloat (SFadd prec emax x fy)))%except
  | _, _ =>
      match a, b with
      | VStr s, VStr t => Ok (VStr (s ++ t))
      | VList l, VList l' => Ok (VList (l ++ l')%list)
      | _, _ => Raise (unsupported "+=" a b)
      end
  end.

Definition float_is_zero (f : float) : bool :=
  match f with S754_zero _ => true | _ => false end.

Definition float_truediv (x y : float) : except float :=
  if float_is_zero y then Raise (ZeroDivisionError "float division by zero")
  else Ok (SFdiv prec emax x y).

(** [a / b] *)
Definition truediv (a b : value) : except value :=
  match as_number a, as_number b with
  | Some (NInt x), Some (NInt y) => (f <- int_truediv x y ;; Ok (VFloat f))%except
  | Some (NFloat x), Some (NFloat y) =>
      (f <- float_truediv x y ;; Ok (VFloat f))%except
  | Some (NInt x), Some (NFloat y) =>
      (fx <- float_of_int x ;; f <- float_truediv fx y ;; Ok (VFloat f))%except
  | Some (NFloat x), Some (NInt y) =>
      (fy <- float_of_int y ;; f <- float_truediv x fy ;; Ok (VFloat f))%except
  | _, _ => Raise (unsupported "/" a b)
  end.

(** *** Dictionaries keyed by hashable values *)

(** An int and a float are equal when they denote the same real number. *)
Definition float_eqb_int (f : float) (n : Z) : bool :=
  match f with
  | S754_zero _ => n =? 0
  | S754_finite s m e =>
      let sm := cond_Zopp s (Zpos m) in
      if 0 <=? e then n =? sm * 2 ^ e else n * 2 ^ (- e) =? sm
  | _ => false
  end.

Definition number_eqb (x y : number) : bool :=
  match x, y with
  | NInt a, NInt b => a =? b
  | NFloat f, NFloat g => SFeqb f g
  | NInt a, NFloat f | NFloat f, NInt a => float_eqb_int f a
  end.

(** [a == b] on hashable values, as dictionary lookup uses it. *)
Definition key_eqb (a b : value) : bool :=
  match a, b with
  | VNone, VNone => true
  | VStr s, VStr t => String.eqb s t
  | _, _ =>
      match as_number a, as_number b with
      | Some x, Some y => number_eqb x y
      | _, _ => false
      end
  end.

Arguments key_eqb : simpl never.

(** [hash(v)] raises on lists and dicts. *)
Definition check_hashable (v : value) : except unit :=
  match v with
  | VList _ | VDict _ =>
      Raise (TypeError ("unhashable type: '" ++ type_name v ++ "'"))
  | _ => Ok tt
  end.

(** A dictionary with arbitrary hashable keys, in insertion order. *)
Definition kdict (A : Type) : Type := list (value * A).

(** [d[k]], [None] when [k not in d] *)
Fixpoint kdict_find {A : Type} (k : value) (d : kdict A) : option A :=
  match d with
  | [] => None
  | (k', v) :: rest => if key_eqb k' k then Some v else kdict_find k rest
  end.

(** [d[k] = v]: an existing key keeps its place (and its key object), a new
    key goes last. *)
Fixpoint kdict_set {A : Type} (k : value) (v : A) (d : kdict A) : kdict A :=
  match d with
  | [] => [(k, v)]
  | (k', v') :: rest =>
      if key_eqb k' k then (k', v) :: rest else (k', v') :: kdict_set k v rest
  end.

End Py.
Import Py.
Local Open Scope except_scope.

(** ** The record store, as the application sees it *)

Module Store.

(** The restrictions the query builder can add to a select. *)
Inductive condition : Type :=
| In_ (column : string) (values : list string)
| Gte (column : string) (bound : float)
| Lte (column : string) (bound : float).

Record query : Type := {
  table : string;
  columns : string;
  filters : list condition;
  order_by : option string;
  window : option (Z * Z)
}.

(** [supabase.table(t).select(c)] *)
Definition select (t c : string) : query :=
  {| table := t; columns := c; filters := []; order_by := None; window := None |}.

Definition add_filter (f : condition) (q : query) : query :=
  {| table := table q; columns := columns q;
     filters := (filters q ++ [f])%list;
     order_by := order_by q; window := window q |}.

(** [q.in_(c, vs)], [q.gte(c, b)], [q.lte(c, b)] *)
Definition in_ (q : query) (c : string) (vs : list string) : query :=
  add_filter (In_ c vs) q.
Definition gte (q : query) (c : string) (b : float) : query :=
  add_filter (Gte c b) q.
Definition lte (q : query) (c : string) (b : float) : query :=
  add_filter (Lte c b) q.

(** [q.order(c)] *)
Definition order (q : query) (c : string) : query :=
  {| table := table q; columns := columns q; filters := filters q;
     order_by := Some c; window := window q |}.

(** [q.range(first, last)], both ends included *)
Definition range (q : query) (first last : Z) : query :=
  {| table := table q; columns := columns q; filters := filters q;
     order_by := order_by q; window := Some (first, last) |}.

(** The four operations of the store; update and delete are keyed by
    [.eq(column, v)]. *)
Inductive request : Type :=
| Select (q : query)
| Insert (t : string) (row : dict)
| Update (t : string) (data : dict) (eq : string * value)
| Delete (t : string) (eq : string * value).

(** A handler: a computation that may call the store ([.execute()]), return
    or raise.  The continuation of a call receives [response.data], or the
    exception the call raised. *)
Inductive prog (A : Type) : Type :=
| Return (a : A)
| Throw (e : exn)
| Execute (rq : request) (k : except (list dict) -> prog A).
Arguments Return {A} a.
Arguments Throw {A} e.
Arguments Execute {A} rq k.

Fixpoint pbind {A B : Type} (p : prog A) (f : A -> prog B) : prog B :=
  match p with
  | Return a => f a
  | Throw e => Throw e
  | Execute rq k => Execute rq (fun r => pbind (k r) f)
  end.

(** [try: p  except Exception as e: h e] *)
Fixpoint try_except {A : Type} (p : prog A) (h : exn -> prog A) : prog A :=
  match p with
  | Return a => Return a
  | Throw e => h e
  | Execute rq k => Execute rq (fun r => try_except (k r) h)
  end.

Definition lift {A : Type} (c : except A) : prog A :=
  match c with
  | Ok a => Return a
  | Raise e => Throw e
  end.

(** [rq.execute().data] *)
Definition execute (rq : request) : prog (list dict) :=
  Execute rq lift.

(** Running a handler against a store. *)
Fixpoint run {A : Type} (store : request -> except (list dict)) (p : prog A)
  : except A :=
  match p with
  | Return a => Ok a
  | Throw e => Raise e
  | Execute rq k => run store (k (store rq))
  end.

(** The number of store calls a handler makes against a store. *)
Fixpoint calls {A : Type} (store : request -> except (list dict)) (p : prog A)
  : list request :=
  match p with
  | Return _ | Throw _ => []
  | Execute rq k => rq :: calls store (k (store rq))
  end.

End Store.
Import Store.

Declare Scope prog_scope.
Delimit Scope prog_scope with prog.
Notation "x <- c ;; k" := (pbind c (fun x => k))
  (at level 61, c at next level, right associativity) : prog_scope.

(** ** The Flask request *)

Module Flask.

(** [request.method] in a view of [/admin]: the route admits these three. *)
Inductive http_method : Type := POST | DELETE | PUT.

Record request : Type := {
  (** the Content-Type announces JSON *)
  is_json : bool;
  (** the decoded body, or the exception its decoding raises *)
  body : except value;
  (** the query string, one pair per occurrence of a parameter *)
  args : list (string * string)
}.

(** [request.get_json()] and [request.json]: without a JSON Content-Type
    Flask (2.1 and later) refuses with 415. *)
Definition get_json (r : request) : except value :=
  if is_json r then body r
  else Raise (HTTPException 415 "415 Unsupported Media Type").

(** [request.args.get(k)]: the first value of the parameter *)
Fixpoint args_get (a : list (string * string)) (k : string) : option string :=
  match a with
  | [] => None
  | (k', v) :: rest => if String.eqb k' k then Some v else args_get rest k
  end.

(** [request.args.get(k, default, type=t)]: the default when the parameter is
    absent or [t] rejects it *)
Definition args_get_type {A : Type} (a : list (string * string)) (k : string)
    (default : A) (t : string -> option A) : A :=
  match args_get a k with
  | None => default
  | Some s => match t s with Some v => v | None => default end
  end.

(** [request.args.getlist(k)] *)
Definition args_getlist (a : list (string * string)) (k : string) : list string :=
  map snd (filter (fun kv => String.eqb (fst kv) k) a).

(** The dictionary [stats] of the dashboard. *)
Record statistics : Type := {
  total_dogs : Z;
  unique_breeds : Z;
  breed_distribution : kdict Z;
  total_inventory_value : value;
  average_price : value
}.

(** What a view hands to [jsonify]. *)
Inductive payload : Type :=
| JError (error : string)
| JDashboard (dogs : list dict) (stats : statistics)
| JDogs (page : Z) (dogs : list dict)
| JLogin (access_token message : string)
| JMessage (message : string) (data : list dict).

(** A view's return value: the JSON payload and the status code. *)
Definition response : Type := payload * Z.

End Flask.
Import Flask.

(** ** The application *)

(** [len(l)] *)
Definition len {A : Type} (l : list A) : Z := Z.of_nat (List.length l).

(** *** The dashboard *)

(** One turn of the loop of [dashboard] over a dog: count its breed, add its
    price. *)
Definition count_dog (dog : dict) (breeds : kdict Z) (total_value : value)
  : except (kdict Z * value) :=
  let breed := dict_get dog "breed" in
  _ <- check_hashable breed ;;
  let breeds :=
    match kdict_find breed breeds with
    | Some n => kdict_set breed (n + 1) breeds
    | None => kdict_set breed 1 breeds
    end in
  total_value <- iadd total_value (dict_get_default dog "price" (VInt 0)) ;;
  Ok (breeds, total_value).

Fixpoint count_dogs (dogs : list dict) (breeds : kdict Z) (total_value : value)
  : except (kdict Z * value) :=
  match dogs with
  | [] => Ok (breeds, total_value)
  | dog :: rest =>
      '(breeds, total_value) <- count_dog dog breeds total_value ;;
      count_dogs rest breeds total_value
  end.

(** The [else] branch of [dashboard]: the loop over the dogs and the
    statistics drawn from it. *)
Definition general_stats (dogs : list dict) : except statistics :=
  '(breeds, total_value) <- count_dogs dogs [] (VInt 0) ;;
  average <- match dogs with
             | [] => Ok (VInt 0)
             | _ :: _ => truediv total_value (VInt (len dogs))
             end ;;
  Ok {| total_dogs := len dogs;
        unique_breeds := len breeds;
        breed_distribution := breeds;
        total_inventory_value := total_value;
        average_price := average |}.

(** The [if not dogs] branch. *)
Definition empty_stats : statistics :=
  {| total_dogs := 0;
     unique_breeds := 0;
     breed_distribution := [];
     total_inventory_value := VInt 0;
     average_price := VInt 0 |}.

(** The statistics aggregator: the value of [stats] in [dashboard]. *)
Definition stats (dogs : list dict) : except statistics :=
  match dogs with
  | [] => Ok empty_stats
  | _ :: _ => general_stats dogs
  end.

Definition internal_error (e : exn) : prog response :=
  Return (JError (str_exn e), 500).

Definition dashboard : prog response :=
  try_except
    (dogs <- execute (Select (select "dogs" "*")) ;;
     stats <- lift (stats dogs) ;;
     Return (JDashboard dogs stats, 200))%prog
    internal_error.

(** *** The paginated list *)

Section GetDogs.

(** Python's [int] and [float] applied to a string: [None] stands for the
    [ValueError] they raise on text that is not a number. *)
Variable int : string -> option Z.
Variable float : string -> option Py.float.

Definition get_dogs (request : Flask.request) : prog response :=
  try_except
    (let page := args_get_type (args request) "page" 1 int in
     let page_size := 20 in
     let offset := (page - 1) * page_size in
     let breeds := args_getlist (args request) "breed" in
     let min_price :=
       args_get_type (args request) "min_price" None (fun s => option_map Some (float s)) in
     let max_price :=
       args_get_type (args request) "max_price" None (fun s => option_map Some (float s)) in
     let query := select "dogs" "*" in
     let query := match breeds with [] => query | _ => in_ query "breed" breeds end in
     let query := match min_price with Some b => gte query "price" b | None => query end in
     let query := match max_price with Some b => lte query "price" b | None => query end in
     dogs <- execute (Select (range (order query "id") offset (offset + page_size - 1))) ;;
     Return (JDogs page dogs, 200))%prog
    internal_error.

End GetDogs.

(** *** The admin endpoints *)

Definition add_dogs (name image breed price : value) : prog (list dict) :=
  try_except
    (execute (Insert "dogs" [("name", name); ("image", image);
                             ("breed", breed); ("price", price)]))
    (fun e => Throw (Exception ("Error adding dog: " ++ str_exn e))).

(** [os.environ.get(k, default)] *)
Fixpoint environ_get (environ : list (string * string)) (k default : string)
  : string :=
  match environ with
  | [] => default
  | (k', v) :: rest => if String.eqb k' k then v else environ_get rest k default
  end.

(** [v == s] for a str [s] *)
Definition eq_str (v : value) (s : string) : bool :=
  match v with
  | VStr t => String.eqb t s
  | _ => false
  end.

(** [admin_login] has no exception handler of its own: what it raises is left
    to Flask. *)
Definition admin_login (environ : list (string * string))
    (request : Flask.request) : except response :=
  data <- get_json request ;;
  username <- get data "username" ;;
  password <- get data "password" ;;
  let admin_username := environ_get environ "ADMIN_USERNAME" "admin" in
  let admin_password := environ_get environ "ADMIN_PASSWORD" "password" in
  if eq_str username admin_username && eq_str password admin_password then
    Ok (JLogin (environ_get environ "ADMIN_TOKEN" "dummy_admin_token")
               "Login successful", 200)
  else
    Ok (JError "Invalid credentials", 403).

(** The fields a partial update may carry. *)
Definition update_fields : list string := ["name"; "image"; "breed"; "price"].

(** [k in l] for strings *)
Definition str_in (k : string) (l : list string) : bool :=
  existsb (String.eqb k) l.

(** [all(l)] *)
Definition all (l : list value) : bool := forallb truthy l.

Definition admin_dogs (method : http_method) (request : Flask.request)
  : prog response :=
  try_except
    (match method with
     | DELETE =>
         dog_id <- (if is_json request
                    then lift (json <- get_json request ;; get json "id")%except
                    else Return (match args_get (args request) "id" with
                                 | Some s => VStr s
                                 | None => VNone
                                 end)) ;;
         if negb (truthy dog_id) then Return (JError "Missing dog id", 400)
         else
           data <- execute (Delete "dogs" ("id", dog_id)) ;;
           Return (JMessage "Dog deleted" data, 200)
     | POST =>
         if negb (is_json request) then
           Return (JError "Request must be JSON", 400)
         else
           data <- lift (get_json request) ;;
           name <- lift (get data "name") ;;
           image <- lift (get data "image") ;;
           breed <- lift (get data "breed") ;;
           price <- lift (get data "price") ;;
           if negb (all [name; image; breed; price]) then
             Return (JError "Missing required fields", 400)
           else
             result <- add_dogs name image breed price ;;
             Return (JMessage "Dog added successfully" result, 200)
     | PUT =>
         if negb (is_json request) then
           Return (JError "Request must be JSON", 400)
         else
           dog_id <- lift (json <- get_json request ;; get json "id")%except ;;
           if negb (truthy dog_id) then Return (JError "Missing dog id", 400)
           else
             update_data <-
               lift (json <- get_json request ;;
                     its <- items json ;;
                     Ok (filter (fun kv => str_in (fst kv) update_fields) its))%except ;;
             match update_data with
             | [] => Return (JError "No valid fields to update", 400)
             | _ =>
                 data <- execute (Update "dogs" update_data ("id", dog_id)) ;;
                 Return (JMessage "Dog updated" data, 200)
             end
     end)%prog
    internal_error.

(** ** A model of the record store *)

Module Model.

(** Numbers in the order the store compares them: the rationals, the two
    infinities around them, and NaN above everything and equal to itself. *)
Inductive xnum : Type :=
| XNegInf
| XFin (q : Q)
| XPosInf
| XNaN.

Definition xnum_leb (a b : xnum) : bool :=
  match a, b with
  | _, XNaN => true
  | XNaN, _ => false
  | XNegInf, _ => true
  | _, XNegInf => false
  | _, XPosInf => true
  | XPosInf, _ => false
  | XFin p, XFin q => Qle_bool p q
  end.

(** The number a float denotes: [m * 2 ^ e] with its sign. *)
Definition xnum_of_float (f : Py.float) : xnum :=
  match f with
  | S754_zero _ => XFin 0
  | S754_infinity s => if s then XNegInf else XPosInf
  | S754_nan => XNaN
  | S754_finite s m e => XFin (inject_Z (cond_Zopp s (Zpos m)) * Qpower 2 e)
  end.

Definition xnum_of_number (n : number) : xnum :=
  match n with
  | NInt z => XFin (inject_Z z)
  | NFloat f => xnum_of_float f
  end.

(** Modelled from the spec: the record of the data model ([id] unique and
    ordering key, [name], [image] and [breed] text, [price] numeric); a
    column without a value holds null. *)
Record row : Type := {
  id : Z;
  name : option string;
  image : option string;
  breed : option string;
  price : option number
}.

Definition text (c : option string) : value :=
  match c with
  | Some s => VStr s
  | None => VNone
  end.

Definition numeric (c : option number) : value :=
  match c with
  | Some (NInt n) => VInt n
  | Some (NFloat f) => VFloat f
  | None => VNone
  end.

(** The row as the client returns it in [response.data]. *)
Definition row_to_dict (r : row) : dict :=
  [("id", VInt (id r)); ("name", text (name r)); ("image", text (image r));
   ("breed", text (breed r)); ("price", numeric (price r))].

(** Modelled from the spec: a record passes [In_] when its (text) column is a
    member of the set, [Gte] when its (numeric) column is at least the bound
    and [Lte] when it is at most the bound; a null column passes none. *)
Definition satisfies (r : row) (c : condition) : bool :=
  match c with
  | In_ col vs =>
      match dict_get (row_to_dict r) col with
      | VStr s => str_in s vs
      | _ => false
      end
  | Gte col b =>
      match as_number (dict_get (row_to_dict r) col) with
      | Some n => xnum_leb (xnum_of_float b) (xnum_of_number n)
      | None => false
      end
  | Lte col b =>
      match as_number (dict_get (row_to_dict r) col) with
      | Some n => xnum_leb (xnum_of_number n) (xnum_of_float b)
      | None => false
      end
  end.

Definition matching (q : query) (r : row) : bool :=
  forallb (satisfies r) (filters q).

Fixpoint insert_by_id (r : row) (l : list row) : list row :=
  match l with
  | [] => [r]
  | r' :: rest => if id r <=? id r' then r :: l else r' :: insert_by_id r rest
  end.

Fixpoint sort_by_id (l : list row) : list row :=
  match l with
  | [] => []
  | r :: rest => insert_by_id r (sort_by_id rest)
  end.

(** Modelled from the spec: results ordered ascending by [id]; the
    application orders by no other column, for which the model keeps the
    order of the table. *)
Definition ordered (q : query) (l : list row) : list row :=
  match order_by q with
  | Some c => if String.eqb c "id" then sort_by_id l else l
  | None => l
  end.

(** Modelled from the spec: the window of a range, from index [first] to
    index [last] included, shorter or empty where the records run out.  The
    spec leaves a negative [first] open; here it counts as 0. *)
Definition windowed (q : query) (l : list row) : list row :=
  match window q with
  | Some (first, last) =>
      firstn (Z.to_nat (last - first + 1)) (skipn (Z.to_nat first) l)
  | None => l
  end.

(** Modelled from the spec: [select(filters, order, range) -> records[]] of
    the external record store holding the rows [tbl]. *)
Definition select_rows (tbl : list row) (q : query) : list row :=
  windowed q (ordered q (filter (matching q) tbl)).

(** A store that holds [tbl] answers every select as the model does. *)
Definition holds (store : Store.request -> except (list dict)) (tbl : list row)
  : Prop :=
  forall q, store (Select q) = Ok (map row_to_dict (select_rows tbl q)).

(** The store that holds [tbl] and refuses to write. *)
Definition read_only (tbl : list row) (rq : Store.request)
  : except (list dict) :=
  match rq with
  | Select q => Ok (map row_to_dict (select_rows tbl q))
  | _ => Raise (StoreError "read-only store")
  end.

End Model.

(** ** Vocabulary of the properties *)

(** The breed a record is counted under and the price it adds to the total,
    as the loop of [dashboard] reads them. *)
Definition breed_of (dog : dict) : value := dict_get dog "breed".
Definition price_of (dog : dict) : value := dict_get_default dog "price" (VInt 0).

(** Text or null: the values of a text column. *)
Definition is_text (v : value) : bool :=
  match v with
  | VNone | VStr _ => true
  | _ => false
  end.

(** An int (bool included, as in Python). *)
Definition is_int (v : value) : bool :=
  match as_number v with
  | Some (NInt _) => true
  | _ => false
  end.

Definition int_of (v : value) : Z :=
  match as_number v with
  | Some (NInt n) => n
  | _ => 0
  end.

(** Records whose breed is text, null or missing; records whose price is an
    int or missing. *)
Definition text_breeds (dogs : list dict) : Prop :=
  Forall (fun dog => is_text (breed_of dog) = true) dogs.
Definition int_prices (dogs : list dict) : Prop :=
  Forall (fun dog => is_int (price_of dog) = true) dogs.

(** The number of records of a breed. *)
Definition count_breed (k : value) (dogs : list dict) : Z :=
  len (filter (fun dog => key_eqb (breed_of dog) k) dogs).

(** The sum of the int prices. *)
Fixpoint price_total (dogs : list dict) : Z :=
  match dogs with
  | [] => 0
  | dog :: rest => int_of (price_of dog) + price_total rest
  end.

Definition keys {A : Type} (d : kdict A) : list value := map fst d.

(** The sum of the values of a distribution. *)
Fixpoint kdict_total (d : kdict Z) : Z :=
  match d with
  | [] => 0
  | (_, n) :: rest => n + kdict_total rest
  end.

(** The update of [breeds] in one turn of the loop. *)
Definition bump (k : value) (breeds : kdict Z) : kdict Z :=
  match kdict_find k breeds with
  | Some n => kdict_set k (n + 1) breeds
  | None => kdict_set k 1 breeds
  end.

Definition text_keys (d : kdict Z) : Prop :=
  Forall (fun k => is_text k = true) (keys d).

(** Adding [c] occurrences to an entry that may be absent. *)
Definition add_count (c : Z) (entry : option Z) : option Z :=
  if c =? 0 then entry
  else Some (c + match entry with Some n => n | None => 0 end).

(** Two results of the aggregator that a client cannot tell apart: the same
    exception, or statistics with equal numbers and breed distributions that
    are equal as mappings. *)
Definition same_statistics (s1 s2 : statistics) : Prop :=
  total_dogs s1 = total_dogs s2
  /\ unique_breeds s1 = unique_breeds s2
  /\ (forall k, kdict_find k (breed_distribution s1)
                = kdict_find k (breed_distribution s2))
  /\ total_inventory_value s1 = total_inventory_value s2
  /\ average_price s1 = average_price s2.

Definition same_outcome (r1 r2 : except statistics) : Prop :=
  match r1, r2 with
  | Ok s1, Ok s2 => same_statistics s1 s2
  | Raise e1, Raise e2 => e1 = e2
  | _, _ => False
  end.

(** *** Listing *)

(** The query parameters as [get_dogs] reads them, given Python's [int] and
    [float] on strings. *)
Section QueryParameters.

Variable int : string -> option Z.
Variable float : string -> option Py.float.

Definition page_of (request : Flask.request) : Z :=
  args_get_type (args request) "page" 1 int.

Definition breeds_of (request : Flask.request) : list string :=
  args_getlist (args request) "breed".

Definition min_price_of (request : Flask.request) : option Py.float :=
  args_get_type (args request) "min_price" None (fun s => option_map Some (float s)).

Definition max_price_of (request : Flask.request) : option Py.float :=
  args_get_type (args request) "max_price" None (fun s => option_map Some (float s)).

End QueryParameters.

(** The query [get_dogs] sends for given parameters. *)
Definition dogs_filters (breeds : list string)
    (min_price max_price : option Py.float) : list condition :=
  ((match breeds with [] => [] | _ => [In_ "breed" breeds] end)
   ++ (match min_price with Some b => [Gte "price" b] | None => [] end)
   ++ (match max_price with Some b => [Lte "price" b] | None => [] end))%list.

Definition dogs_query (page : Z) (breeds : list string)
    (min_price max_price : option Py.float) : query :=
  {| table := "dogs";
     columns := "*";
     filters := dogs_filters breeds min_price max_price;
     order_by := Some "id";
     window := Some ((page - 1) * 20, (page - 1) * 20 + 20 - 1) |}.

(** The records the contract of the query builder asks for: breed in the
    set when the set is not empty, price at least [min_price] and at most
    [max_price] when these are given. *)
Definition wanted (breeds : list string) (min_price max_price : option Py.float)
    (r : Model.row) : bool :=
  match breeds with
  | [] => true
  | _ => match Model.breed r with
         | Some b => str_in b breeds
         | None => false
         end
  end
  && match min_price with
     | None => true
     | Some lo => match Model.price r with
                  | Some p => Model.xnum_leb (Model.xnum_of_float lo)
                                             (Model.xnum_of_number p)
                  | None => false
                  end
     end
  && match max_price with
     | None => true
     | Some hi => match Model.price r with
                  | Some p => Model.xnum_leb (Model.xnum_of_number p)
                                             (Model.xnum_of_float hi)
                  | None => false
                  end
     end.

(** Ascending [id]. *)
Definition by_id (r1 r2 : Model.row) : Prop := Model.id r1 <= Model.id r2.

(** [lo > hi] as numbers, in the order of the store. *)
Definition exceeds (lo hi : Py.float) : Prop :=
  Model.xnum_leb (Model.xnum_of_float lo) (Model.xnum_of_float hi) = false.

(** *** Admin *)

(** The four values a create request must carry. *)
Definition required_fields : list string := ["name"; "image"; "breed"; "price"].

(** A request with a JSON body. *)
Definition json_request (v : value) : Flask.request :=
  {| is_json := true; body := Ok v; args := [] |}.

(** *** Records the aggregator accepts *)

(** A value that can be a dictionary key; a value that is a number. *)
Definition hashable (v : value) : bool :=
  match v with
  | VList _ | VDict _ => false
  | _ => true
  end.

Definition is_number (v : value) : bool :=
  match as_number v with
  | Some _ => true
  | None => false
  end.

(** A count of at least one. *)
Definition counted (kv : value * Z) : Prop := 1 <= snd kv.

(** *** Handlers *)

(** The status code of a response. *)
Definition status (r : response) : Z := snd r.

(** The id a DELETE names: the [id] of the body when the request is JSON, the
    [id] of the query string otherwise. *)
Definition delete_id (request : Flask.request) : except value :=
  if is_json request then (json <- get_json request ;; get json "id")
  else Ok (match args_get (args request) "id" with
           | Some s => VStr s
           | None => VNone
           end).

(** The message of the AttributeError that [v.get] raises. *)
Definition no_get (v : value) : string :=
  "'" ++ type_name v ++ "' object has no attribute 'get'".

(** The row a create request inserts. *)
Definition new_row (d : dict) : dict :=
  [("name", dict_get d "name"); ("image", dict_get d "image");
   ("breed", dict_get d "breed"); ("price", dict_get d "price")].

(** A request without a JSON Content-Type, with the given query string. *)
Definition plain_request (a : list (string * string)) : Flask.request :=
  {| is_json := false; body := Ok VNone; args := a |}.

(** The calls that read and the calls that write. *)
Definition is_select (rq : Store.request) : bool :=
  match rq with
  | Select _ => true
  | _ => false
  end.


(** Sample records. *)
Module Scenario.

(** The records of the spec's dashboard scenario. *)
Definition lab_100 : dict :=
  [("id", VInt 1); ("breed", VStr "Lab"); ("price", VInt 100)].
Definition lab_200 : dict :=
  [("id", VInt 2); ("breed", VStr "Lab"); ("price", VInt 200)].
Definition poodle_null : dict :=
  [("id", VInt 3); ("breed", VStr "Poodle"); ("price", VNone)].

(** The same poodle, with no [price] key at all. *)
Definition poodle_missing : dict :=
  [("id", VInt 3); ("breed", VStr "Poodle")].

Definition hundred : Py.float := S754_finite false 7036874417766400 (-46).

End Scenario.

Module Kennel.

(** Three records: a Lab, a record whose breed is null and one that has no
    breed at all. *)
Definition lab : dict := [("id", VInt 1); ("breed", VStr "Lab"); ("price", VInt 5)].
Definition null_breed : dict := [("id", VInt 2); ("breed", VNone); ("price", VInt 7)].
Definition no_breed : dict := [("id", VInt 3); ("price", VInt 9)].

Definition dogs : list dict := [lab; null_breed; no_breed].

Definition seven : Py.float := S754_finite false 7881299347898368 (-50).

Definition statistics : Flask.statistics :=
  {| total_dogs := 3;
     unique_breeds := 2;
     breed_distribution := [(VStr "Lab", 1); (VNone, 2)];
     total_inventory_value := VInt 21;
     average_price := VFloat seven |}.

End Kennel.

Module Cents.

(** The floats 0.1, 0.2 and 0.3, and the two sums Python prints as
    0.6000000000000001 and 0.6. *)
Definition f0_1 : Py.float := S754_finite false 7205759403792794 (-56).
Definition f0_2 : Py.float := S754_finite false 7205759403792794 (-55).
Definition f0_3 : Py.float := S754_finite false 5404319552844595 (-54).
Definition f0_6_up : Py.float := S754_finite false 5404319552844596 (-53).
Definition f0_6 : Py.float := S754_finite false 5404319552844595 (-53).

Definition priced (i : Z) (p : Py.float) : dict :=
  [("id", VInt i); ("breed", VStr "Lab"); ("price", VFloat p)].

Definition ascending : list dict := [priced 1 f0_1; priced 2 f0_2; priced 3 f0_3].
Definition descending : list dict := [priced 3 f0_3; priced 2 f0_2; priced 1 f0_1].

End Cents.

Module Sample.

(** Stand-ins for Python's [int] and [float] on strings, defined on plain
    runs of decimal digits (Python accepts more spellings). *)
Fixpoint digits (s : string) (acc : Z) : option Z :=
  match s with
  | EmptyString => Some acc
  | String c rest =>
      let n := Z.of_nat (nat_of_ascii c) - 48 in
      if (0 <=? n) && (n <=? 9) then digits rest (10 * acc + n) else None
  end.

Definition int (s : string) : option Z :=
  match s with
  | EmptyString => None
  | _ => digits s 0
  end.

Definition float (s : string) : option Py.float :=
  match int s with
  | Some n => match float_of_int n with Ok f => Some f | Raise _ => None end
  | None => None
  end.

(** A Lab with the given id, priced 50 more than its id. *)
Definition lab (i : Z) : Model.row :=
  {| Model.id := i; Model.name := Some "Rex"; Model.image := None;
     Model.breed := Some "Lab"; Model.price := Some (NInt (50 + i)) |}.

(** A dog without a price. *)
Definition stray (i : Z) : Model.row :=
  {| Model.id := i; Model.name := None; Model.image := None;
     Model.breed := None; Model.price := None |}.

(** The Labs with ids [n], ..., 1, in this order. *)
Fixpoint labs (n : nat) : list Model.row :=
  match n with
  | O => []
  | S m => lab (Z.of_nat n) :: labs m
  end.

(** 25 Labs and a stray. *)
Definition kennel : list Model.row := stray 0 :: labs 25.

(** [GET /dogs?page=2&min_price=50] *)
Definition page_2 : Flask.request :=
  {| is_json := false; body := Ok VNone;
     args := [("page", "2"); ("min_price", "50")] |}.

(** [GET /dogs?min_price=80&max_price=60] *)
Definition crossed : Flask.request :=
  {| is_json := false; body := Ok VNone;
     args := [("min_price", "80"); ("max_price", "60")] |}.

(** [GET /dogs?breed=Poodle&breed=Pug] *)
Definition poodles : Flask.request :=
  {| is_json := false; body := Ok VNone;
     args := [("breed", "Poodle"); ("breed", "Pug")] |}.

End Sample.

(** * Properties *)

(** ** The statistics aggregator *)


(** C1, at the scenario of the spec: on the three records whose last price is
    null the loop raises a TypeError at [total_value += None], so the
    aggregator produces no statistics and the dashboard answers 500 instead
    of a total of 300. *)
Theorem stats_null_price_raises :
  let dogs := [Scenario.lab_100; Scenario.lab_200; Scenario.poodle_null] in
  stats dogs
  = Raise (TypeError "unsupported operand type(s) for +=: 'int' and 'NoneType'")
  /\ run (fun _ => Ok dogs) dashboard
     = Ok (JError "unsupported operand type(s) for +=: 'int' and 'NoneType'", 500).
Proof. split; reflexivity. Qed.

(** More generally, one record whose price is null is enough for the
    aggregator to raise, whatever the other records are. *)
Lemma iadd_none total : exists e, iadd total VNone = Raise e.
Proof. destruct total; cbn; eauto. Qed.

Lemma count_dogs_null_price dogs : forall breeds total,
  (exists dog, In dog dogs /\ dict_get_default dog "price" (VInt 0) = VNone) ->
  exists e, count_dogs dogs breeds total = Raise e.
Proof.
  induction dogs as [|dog rest IH]; intros b t (d & Hin & Hnull).
  - destruct Hin.
  - cbn [count_dogs]. unfold count_dog at 1.
    destruct (check_hashable (dict_get dog "breed")); cbn [bind]; [|eauto].
    destruct Hin as [->|Hin].
    + rewrite Hnull. destruct (iadd_none t) as (e & ->). cbn [bind]. eauto.
    + destruct (iadd t _); cbn [bind]; [|eauto]. apply IH. eauto.
Qed.

Lemma stats_null_price dogs dog :
  In dog dogs -> dict_find "price" dog = Some VNone ->
  exists e, stats dogs = Raise e.
Proof.
  intros Hin Hnull. destruct dogs as [|d rest]; [destruct Hin|].
  unfold stats, general_stats.
  destruct (count_dogs_null_price (d :: rest) [] (VInt 0)) as (e & ->).
  - exists dog. split; [exact Hin|].
    unfold dict_get_default. now rewrite Hnull.
  - cbn [bind]. eauto.
Qed.

(** A price that is missing altogether does count as 0: the same scenario
    without the [price] key yields the statistics the spec expects. *)
Lemma stats_missing_price_is_zero :
  stats [Scenario.lab_100; Scenario.lab_200; Scenario.poodle_missing]
  = Ok {| total_dogs := 3;
          unique_breeds := 2;
          breed_distribution := [(VStr "Lab", 2); (VStr "Poodle", 1)];
          total_inventory_value := VInt 300;
          average_price := VFloat Scenario.hundred |}.
Proof. reflexivity. Qed.

(** C2: on the empty record sequence the aggregator returns the statistics
    of its [if not dogs] branch, zero for the four numeric statistics and the
    empty breed distribution, and so does the dashboard on an empty store. *)
Theorem stats_empty :
  stats [] = Ok empty_stats
  /\ empty_stats = {| total_dogs := 0;
                      unique_breeds := 0;
                      breed_distribution := [];
                      total_inventory_value := VInt 0;
                      average_price := VInt 0 |}
  /\ run (fun _ => Ok []) dashboard = Ok (JDashboard [] empty_stats, 200).
Proof. repeat split. Qed.

(** The general computation is itself guarded ([... if dogs else 0]): were it
    run on no records, it would not divide. *)
Lemma general_stats_empty : general_stats [] = Ok empty_stats.
Proof. reflexivity. Qed.

(** C4: whenever the aggregator produces statistics for a non-empty record
    sequence, [average_price] is Python's quotient
    [total_inventory_value / total_dogs]. *)
Theorem stats_average (dogs : list dict) (s : statistics) :
  dogs <> [] ->
  stats dogs = Ok s ->
  truediv (total_inventory_value s) (VInt (total_dogs s)) = Ok (average_price s).
Proof.
  intros Hne Hs.
  destruct dogs as [|dog rest]; [congruence|].
  unfold stats, general_stats in Hs.
  destruct (count_dogs (dog :: rest) [] (VInt 0)) as [[breeds total]|e];
    cbn [bind] in Hs; [|discriminate].
  destruct (truediv total (VInt (len (dog :: rest)))) as [avg|e] eqn:Hdiv;
    cbn [bind] in Hs; [|discriminate].
  injection Hs as <-. exact Hdiv.
Qed.

Lemma stats_average_witness :
  truediv (VInt 300) (VInt 3) = Ok (VFloat Scenario.hundred).
Proof.
  apply (stats_average
           [Scenario.lab_100; Scenario.lab_200; Scenario.poodle_missing]
           {| total_dogs := 3;
              unique_breeds := 2;
              breed_distribution := [(VStr "Lab", 2); (VStr "Poodle", 1)];
              total_inventory_value := VInt 300;
              average_price := VFloat Scenario.hundred |}).
  - discriminate.
  - reflexivity.
Defined.

(** *** Counting breeds *)

Lemma count_dog_ok dog breeds total r :
  count_dog dog breeds total = Ok r ->
  exists total',
    iadd total (price_of dog) = Ok total'
    /\ r = (bump (breed_of dog) breeds, total').
Proof.
  unfold count_dog, bump, breed_of, price_of.
  destruct (check_hashable (dict_get dog "breed")); cbn [bind]; [|discriminate].
  destruct (iadd total (dict_get_default dog "price" (VInt 0))) as [t|e];
    cbn [bind]; [|discriminate].
  intros [= <-]. now exists t.
Qed.

Lemma bump_total k d : kdict_total (bump k d) = kdict_total d + 1.
Proof.
  unfold bump.
  induction d as [|[k' n] d IH]; [cbn; lia|].
  cbn [kdict_find kdict_set].
  destruct (key_eqb k' k) eqn:E; [cbn; lia|].
  destruct (kdict_find k d); cbn [kdict_set kdict_total] in *; rewrite ?E;
    cbn [kdict_total]; lia.
Qed.

Lemma count_dogs_total dogs : forall breeds total breeds' total',
  count_dogs dogs breeds total = Ok (breeds', total') ->
  kdict_total breeds' = kdict_total breeds + len dogs.
Proof.
  unfold len.
  induction dogs as [|dog rest IH]; intros b t b' t' H; cbn in H.
  - injection H as <- <-. cbn. lia.
  - destruct (count_dog dog b t) as [[b1 t1]|e] eqn:E; cbn [bind] in H;
      [|discriminate].
    apply count_dog_ok in E as (t2 & _ & [= -> ->]).
    apply IH in H. rewrite H, bump_total. cbn [List.length]. lia.
Qed.

(** *** Text keys *)

Lemma key_eqb_text a k : is_text a = true -> key_eqb a k = true -> k = a.
Proof.
  unfold key_eqb.
  destruct a; try discriminate; intros _; destruct k; cbn; try discriminate.
  - reflexivity.
  - intros H. apply String.eqb_eq in H. now subst.
Qed.

Lemma key_eqb_text_refl a : is_text a = true -> key_eqb a a = true.
Proof.
  unfold key_eqb.
  destruct a; try discriminate; intros _; cbn; [reflexivity|].
  apply String.eqb_refl.
Qed.

Lemma bump_text_keys a d :
  is_text a = true -> text_keys d -> text_keys (bump a d).
Proof.
  unfold text_keys, bump. intros Ha.
  induction d as [|[k' n] d IH]; cbn; intros Hd.
  - repeat constructor. exact Ha.
  - inversion Hd as [|? ? Hk Hd']; subst.
    destruct (key_eqb k' a) eqn:E; cbn; rewrite ?E; cbn.
    + now constructor.
    + specialize (IH Hd').
      destruct (kdict_find a d); cbn; now constructor.
Qed.

(** Looking a key up after a turn of the loop. *)
Lemma bump_find a d k :
  is_text a = true -> text_keys d ->
  kdict_find k (bump a d)
  = if key_eqb a k
    then Some (match kdict_find k d with Some n => n + 1 | None => 1 end)
    else kdict_find k d.
Proof.
  unfold text_keys, bump. intros Ha.
  induction d as [|[k' n] d IH]; cbn; intros Hd.
  - destruct (key_eqb a k); reflexivity.
  - inversion Hd as [|? ? Hk Hd']; subst. specialize (IH Hd').
    destruct (key_eqb k' a) eqn:E.
    + apply (key_eqb_text _ _ Hk) in E. subst a.
      cbn. destruct (key_eqb k' k); reflexivity.
    + assert (Eak : key_eqb k' k = true -> key_eqb a k = false).
      { intros Ek'. destruct (key_eqb a k) eqn:Eak; [|reflexivity].
        apply (key_eqb_text _ _ Ha) in Eak.
        apply (key_eqb_text _ _ Hk) in Ek'. subst.
        now rewrite (key_eqb_text_refl _ Ha) in E. }
      destruct (kdict_find a d); cbn;
        (destruct (key_eqb k' k); [now rewrite Eak|exact IH]).
Qed.

Lemma kdict_find_none_keys a (d : kdict Z) :
  is_text a = true -> kdict_find a d = None -> ~ In a (keys d).
Proof.
  intros Ha. induction d as [|[k' n] d IH]; cbn; [tauto|].
  destruct (key_eqb k' a) eqn:E; [discriminate|].
  intros H [->|Hin]; [|now apply IH].
  now rewrite (key_eqb_text_refl _ Ha) in E.
Qed.

Lemma kdict_find_some_keys k (d : kdict Z) n :
  kdict_find k d = Some n -> exists k', In k' (keys d) /\ key_eqb k' k = true.
Proof.
  induction d as [|[k' m] d IH]; cbn; [discriminate|].
  destruct (key_eqb k' k) eqn:E.
  - intros _. exists k'. auto.
  - intros H. destruct (IH H) as (k1 & Hin & Hk). exists k1. auto.
Qed.

Lemma keys_kdict_set_found a d n (v : Z) :
  kdict_find a d = Some n -> keys (kdict_set a v d) = keys d.
Proof.
  unfold keys. induction d as [|[k' m] d IH]; cbn; [discriminate|].
  destruct (key_eqb k' a); cbn; [reflexivity|].
  intros H. now rewrite IH.
Qed.

Lemma keys_kdict_set_new a d (v : Z) :
  kdict_find a d = None -> keys (kdict_set a v d) = (keys d ++ [a])%list.
Proof.
  unfold keys. induction d as [|[k' m] d IH]; cbn; [reflexivity|].
  destruct (key_eqb k' a); cbn; [discriminate|].
  intros H. now rewrite IH.
Qed.

Lemma bump_nodup a d :
  is_text a = true -> NoDup (keys d) -> NoDup (keys (bump a d)).
Proof.
  intros Ha Hd. unfold bump.
  destruct (kdict_find a d) as [n|] eqn:E.
  - now rewrite (keys_kdict_set_found _ _ _ _ E).
  - rewrite (keys_kdict_set_new _ _ _ E).
    apply NoDup_app; [exact Hd|repeat constructor; cbn; tauto|].
    intros x Hx [<-|[]]. exact (kdict_find_none_keys _ _ Ha E Hx).
Qed.

(** *** The distribution against the count of each breed *)

Lemma count_breed_cons k dog rest :
  count_breed k (dog :: rest)
  = (if key_eqb (breed_of dog) k then 1 else 0) + count_breed k rest.
Proof.
  unfold count_breed, len. cbn [filter].
  destruct (key_eqb (breed_of dog) k); cbn [List.length]; lia.
Qed.

Lemma count_breed_nonneg k dogs : 0 <= count_breed k dogs.
Proof. unfold count_breed, len. lia. Qed.

Lemma count_breed_pos k dogs :
  0 < count_breed k dogs <->
  exists dog, In dog dogs /\ key_eqb (breed_of dog) k = true.
Proof.
  induction dogs as [|dog rest IH].
  - cbn. split; [lia|intros (? & [] & _)].
  - rewrite count_breed_cons. pose proof (count_breed_nonneg k rest) as Hpos.
    destruct (key_eqb (breed_of dog) k) eqn:E; split.
    + intros _. exists dog. cbn. auto.
    + lia.
    + intros H. destruct (proj1 IH) as (d & Hin & Hd); [lia|].
      exists d. cbn. auto.
    + intros (d & [<-|Hin] & Hd); [congruence|].
      assert (0 < count_breed k rest) by (apply IH; eauto). lia.
Qed.

Lemma count_dogs_breeds dogs : forall breeds total breeds' total',
  text_breeds dogs ->
  text_keys breeds -> NoDup (keys breeds) ->
  count_dogs dogs breeds total = Ok (breeds', total') ->
  text_keys breeds' /\ NoDup (keys breeds')
  /\ forall k, kdict_find k breeds'
               = add_count (count_breed k dogs) (kdict_find k breeds).
Proof.
  induction dogs as [|dog rest IH]; intros b t b' t' Hdogs Hb Hnd H; cbn in H.
  - injection H as <- <-. repeat split; auto.
  - inversion Hdogs as [|? ? Hdog Hrest]; subst.
    destruct (count_dog dog b t) as [[b1 t1]|e] eqn:E; cbn [bind] in H;
      [|discriminate].
    apply count_dog_ok in E as (t2 & _ & [= -> ->]).
    destruct (IH _ _ _ _ Hrest (bump_text_keys _ _ Hdog Hb)
                 (bump_nodup _ _ Hdog Hnd) H) as (Ht & Hn & Hfind).
    repeat split; auto.
    intros k. rewrite Hfind, (bump_find _ _ _ Hdog Hb), count_breed_cons.
    pose proof (count_breed_nonneg k rest) as Hpos.
    unfold add_count.
    destruct (key_eqb (breed_of dog) k).
    + destruct (Z.eqb_spec (count_breed k rest) 0) as [Hc|Hc];
        destruct (Z.eqb_spec (1 + count_breed k rest) 0); try lia;
        destruct (kdict_find k b); f_equal; lia.
    + reflexivity.
Qed.

Lemma in_keys_find k (d : kdict Z) :
  key_eqb k k = true -> In k (keys d) -> kdict_find k d <> None.
Proof.
  intros Hk. induction d as [|[k' n] d IH]; cbn; [tauto|].
  intros [->|Hin].
  - now rewrite Hk.
  - destruct (key_eqb k' k); [discriminate|auto].
Qed.

(** What the loop leaves in [breeds] when the breeds are text or null. *)
Lemma count_dogs_distribution dogs total breeds total' :
  text_breeds dogs ->
  count_dogs dogs [] total = Ok (breeds, total') ->
  NoDup (keys breeds)
  /\ (forall k, In k (keys breeds)
                <-> exists dog, In dog dogs /\ breed_of dog = k)
  /\ (forall k, kdict_find k breeds
                = if count_breed k dogs =? 0 then None
                  else Some (count_breed k dogs)).
Proof.
  intros Htext Hcount.
  assert (Hinit : text_keys []) by constructor.
  destruct (count_dogs_breeds _ _ _ _ _ Htext Hinit (NoDup_nil _) Hcount)
    as (Hkeys & Hnd & Hfind).
  assert (Hfind' : forall k, kdict_find k breeds
                             = if count_breed k dogs =? 0 then None
                               else Some (count_breed k dogs)).
  { intros k. rewrite Hfind. unfold add_count. cbn [kdict_find].
    destruct (count_breed k dogs =? 0); [reflexivity|f_equal; lia]. }
  split; [exact Hnd|split; [|exact Hfind']].
  intros k. split.
  - intros Hin.
    assert (Hk : is_text k = true)
      by exact (proj1 (Forall_forall _ _) Hkeys k Hin).
    pose proof (in_keys_find _ _ (key_eqb_text_refl _ Hk) Hin) as Hne.
    rewrite Hfind' in Hne.
    destruct (Z.eqb_spec (count_breed k dogs) 0) as [|Hc]; [congruence|].
    pose proof (count_breed_nonneg k dogs).
    destruct (proj1 (count_breed_pos k dogs)) as (dog & Hdog & Heq); [lia|].
    exists dog. split; [exact Hdog|].
    assert (Hd : is_text (breed_of dog) = true)
      by exact (proj1 (Forall_forall _ _) Htext dog Hdog).
    apply (key_eqb_text _ _ Hd) in Heq. now subst k.
  - intros (dog & Hdog & <-).
    assert (Hc : 0 < count_breed (breed_of dog) dogs).
    { apply count_breed_pos. exists dog. split; [exact Hdog|].
      apply key_eqb_text_refl.
      exact (proj1 (Forall_forall _ _) Htext dog Hdog). }
    pose proof (Hfind' (breed_of dog)) as Hf.
    destruct (Z.eqb_spec (count_breed (breed_of dog) dogs) 0); [lia|].
    destruct (kdict_find_some_keys _ _ _ Hf) as (k' & Hin & Hk').
    assert (Hk : is_text k' = true)
      by exact (proj1 (Forall_forall _ _) Hkeys k' Hin).
    apply (key_eqb_text _ _ Hk) in Hk'. now subst.
Qed.

(** C5: whenever the aggregator produces statistics, the values of
    [breed_distribution] sum to [total_dogs] and [unique_breeds] is the number
    of its keys; and when the breeds are text or null (a missing breed reads
    as null), its keys are pairwise distinct, they are exactly the breeds
    present, and each record's breed is mapped to the number of records of
    that breed. *)
Theorem stats_breed_distribution (dogs : list dict) (s : statistics) :
  stats dogs = Ok s ->
  kdict_total (breed_distribution s) = total_dogs s
  /\ unique_breeds s = len (keys (breed_distribution s))
  /\ (text_breeds dogs ->
      NoDup (keys (breed_distribution s))
      /\ (forall k, In k (keys (breed_distribution s))
                    <-> exists dog, In dog dogs /\ breed_of dog = k)
      /\ (forall dog, In dog dogs ->
            kdict_find (breed_of dog) (breed_distribution s)
            = Some (count_breed (breed_of dog) dogs))).
Proof.
  intros Hs. destruct dogs as [|dog0 rest0].
  { injection Hs as <-. cbn. repeat split; try constructor; try tauto.
    intros (? & [] & _). }
  unfold stats, general_stats in Hs. set (dogs := dog0 :: rest0) in *.
  destruct (count_dogs dogs [] (VInt 0)) as [[breeds total]|e] eqn:Hcount;
    cbn [bind] in Hs; [|discriminate].
  destruct (truediv total (VInt (len dogs))) as [avg|e];
    cbn [bind] in Hs; [|discriminate].
  injection Hs as <-. cbn [breed_distribution total_dogs unique_breeds].
  split; [|split].
  - now rewrite (count_dogs_total _ _ _ _ _ Hcount).
  - unfold len, keys. now rewrite length_map.
  - intros Htext.
    destruct (count_dogs_distribution _ _ _ _ Htext Hcount)
      as (Hnd & Hkeys & Hfind).
    split; [exact Hnd|split; [exact Hkeys|]].
    intros dog Hdog. rewrite Hfind.
    assert (Hc : 0 < count_breed (breed_of dog) dogs).
    { apply count_breed_pos. exists dog. split; [exact Hdog|].
      apply key_eqb_text_refl.
      exact (proj1 (Forall_forall _ _) Htext dog Hdog). }
    destruct (Z.eqb_spec (count_breed (breed_of dog) dogs) 0); [lia|reflexivity].
Qed.


Lemma stats_breed_distribution_witness :
  stats Kennel.dogs = Ok Kennel.statistics
  /\ kdict_total [(VStr "Lab", 1); (VNone, 2)] = 3
  /\ NoDup [VStr "Lab"; VNone]
  /\ kdict_find VNone [(VStr "Lab", 1); (VNone, 2)]
     = Some (count_breed VNone Kennel.dogs).
Proof.
  assert (Hs : stats Kennel.dogs = Ok Kennel.statistics) by reflexivity.
  assert (Ht : text_breeds Kennel.dogs) by (repeat constructor).
  destruct (stats_breed_distribution Kennel.dogs Kennel.statistics Hs)
    as (Htotal & _ & Htext).
  destruct (Htext Ht) as (Hnd & _ & Hfind).
  split; [exact Hs|split; [exact Htotal|split; [exact Hnd|]]].
  exact (Hfind Kennel.no_breed (or_intror (or_intror (or_introl eq_refl)))).
Defined.

(** *** Reordering the records *)

(** C6 fails on float prices: the records priced 0.1, 0.2, 0.3 total
    0.6000000000000001, the same records in the opposite order total 0.6, and
    the averages differ as well. *)
Lemma stats_float_prices_reordered :
  Permutation Cents.ascending Cents.descending
  /\ exists s s',
       stats Cents.ascending = Ok s
       /\ stats Cents.descending = Ok s'
       /\ total_inventory_value s = VFloat Cents.f0_6_up
       /\ total_inventory_value s' = VFloat Cents.f0_6
       /\ total_inventory_value s <> total_inventory_value s'
       /\ average_price s <> average_price s'.
Proof.
  split.
  - unfold Cents.ascending, Cents.descending.
    apply Permutation_trans with
      (l' := [Cents.priced 2 Cents.f0_2; Cents.priced 3 Cents.f0_3;
              Cents.priced 1 Cents.f0_1]).
    + apply (Permutation_cons_append [_; _]).
    + apply perm_swap.
  - eexists; eexists.
    split; [vm_compute; reflexivity|].
    split; [vm_compute; reflexivity|].
    cbn [total_inventory_value average_price].
    repeat split; try reflexivity; discriminate.
Qed.

Lemma count_breed_permutation k dogs dogs' :
  Permutation dogs dogs' -> count_breed k dogs = count_breed k dogs'.
Proof.
  induction 1 as [|dog l l' _ IH|d1 d2 l|l l' l'' _ IH1 _ IH2].
  - reflexivity.
  - rewrite !count_breed_cons. lia.
  - rewrite !count_breed_cons. lia.
  - congruence.
Qed.

Lemma price_total_permutation dogs dogs' :
  Permutation dogs dogs' -> price_total dogs = price_total dogs'.
Proof.
  induction 1 as [|dog l l' _ IH|d1 d2 l|l l' l'' _ IH1 _ IH2]; cbn; lia.
Qed.

Lemma len_permutation (dogs dogs' : list dict) :
  Permutation dogs dogs' -> len dogs = len dogs'.
Proof. intros H. unfold len. now rewrite (Permutation_length H). Qed.

(** The breeds counted in two orders of the same records form the same
    mapping, with the same number of keys. *)
Lemma count_dogs_permutation dogs dogs' t t' b1 t1 b2 t2 :
  text_breeds dogs -> Permutation dogs dogs' ->
  count_dogs dogs [] t = Ok (b1, t1) ->
  count_dogs dogs' [] t' = Ok (b2, t2) ->
  len b1 = len b2 /\ forall k, kdict_find k b1 = kdict_find k b2.
Proof.
  intros Htext Hperm H1 H2.
  assert (Htext' : text_breeds dogs')
    by exact (Permutation_Forall Hperm Htext).
  destruct (count_dogs_distribution _ _ _ _ Htext H1) as (Hnd1 & Hk1 & Hf1).
  destruct (count_dogs_distribution _ _ _ _ Htext' H2) as (Hnd2 & Hk2 & Hf2).
  split.
  - assert (Hkeys : Permutation (keys b1) (keys b2)).
    { apply NoDup_Permutation; auto. intros k. rewrite Hk1, Hk2.
      split; intros (dog & Hin & Hb); exists dog; split; auto.
      + exact (Permutation_in _ Hperm Hin).
      + exact (Permutation_in _ (Permutation_sym Hperm) Hin). }
    apply Permutation_length in Hkeys. unfold keys in Hkeys.
    rewrite !length_map in Hkeys. unfold len. now rewrite Hkeys.
  - intros k. now rewrite Hf1, Hf2, (count_breed_permutation k _ _ Hperm).
Qed.

Lemma check_hashable_text v : is_text v = true -> check_hashable v = Ok tt.
Proof. destruct v; try discriminate; reflexivity. Qed.

Lemma iadd_int t p :
  is_int p = true -> iadd (VInt t) p = Ok (VInt (t + int_of p)).
Proof.
  unfold is_int, int_of, iadd. cbn [as_number].
  destruct (as_number p) as [[n|f]|]; try discriminate. reflexivity.
Qed.

(** On int prices the loop never raises and the total is their sum. *)
Lemma count_dogs_int_prices dogs : forall breeds t,
  text_breeds dogs -> int_prices dogs ->
  exists breeds',
    count_dogs dogs breeds (VInt t) = Ok (breeds', VInt (t + price_total dogs)).
Proof.
  induction dogs as [|dog rest IH]; intros b t Htext Hint.
  - exists b. cbn. now rewrite Z.add_0_r.
  - inversion Htext as [|? ? Hb Htext']; inversion Hint as [|? ? Hp Hint']; subst.
    destruct (IH (bump (breed_of dog) b) (t + int_of (price_of dog)) Htext' Hint')
      as (b' & Hrest).
    exists b'. cbn [count_dogs price_total]. unfold count_dog.
    fold (breed_of dog). fold (price_of dog).
    rewrite (check_hashable_text _ Hb). cbn [bind].
    rewrite (iadd_int _ _ Hp). cbn [bind].
    fold (bump (breed_of dog) b). rewrite Hrest. f_equal. f_equal. f_equal. lia.
Qed.

Lemma stats_cons dog rest : stats (dog :: rest) = general_stats (dog :: rest).
Proof. reflexivity. Qed.

(** C6, amended: for records with text (or null) breeds, [total_dogs],
    [unique_breeds] and the mapping [breed_distribution] are the same for
    every reordering of the records for which statistics are produced; and
    when the prices are ints (or missing) the whole outcome is the same for
    every reordering: the same exception, or statistics that agree on all
    five entries. *)
Theorem stats_permutation (dogs dogs' : list dict) :
  text_breeds dogs ->
  Permutation dogs dogs' ->
  (forall s s', stats dogs = Ok s -> stats dogs' = Ok s' ->
     total_dogs s = total_dogs s'
     /\ unique_breeds s = unique_breeds s'
     /\ forall k, kdict_find k (breed_distribution s)
                  = kdict_find k (breed_distribution s'))
  /\ (int_prices dogs -> same_outcome (stats dogs) (stats dogs')).
Proof.
  intros Htext Hperm.
  destruct dogs as [|d rest].
  { apply Permutation_nil in Hperm. subst dogs'. split.
    - intros s s' [= <-] [= <-]. auto.
    - intros _. cbn. repeat split. }
  destruct dogs' as [|d' rest'].
  { apply Permutation_sym, Permutation_nil in Hperm. discriminate. }
  rewrite !stats_cons. unfold general_stats.
  pose proof (len_permutation _ _ Hperm) as Hlen.
  split.
  - intros s s' Hs Hs'.
    destruct (count_dogs (d :: rest) [] (VInt 0)) as [[b1 t1]|e] eqn:H1;
      cbn [bind] in Hs; [|discriminate].
    destruct (count_dogs (d' :: rest') [] (VInt 0)) as [[b2 t2]|e] eqn:H2;
      cbn [bind] in Hs'; [|discriminate].
    destruct (truediv t1 _); cbn [bind] in Hs; [|discriminate].
    destruct (truediv t2 _); cbn [bind] in Hs'; [|discriminate].
    injection Hs as <-. injection Hs' as <-.
    cbn [total_dogs unique_breeds breed_distribution].
    destruct (count_dogs_permutation _ _ _ _ _ _ _ _ Htext Hperm H1 H2)
      as (Hl & Hf).
    auto.
  - intros Hint.
    assert (Htext' : text_breeds (d' :: rest'))
      by exact (Permutation_Forall Hperm Htext).
    assert (Hint' : int_prices (d' :: rest'))
      by exact (Permutation_Forall Hperm Hint).
    destruct (count_dogs_int_prices _ [] 0 Htext Hint) as (b1 & H1).
    destruct (count_dogs_int_prices _ [] 0 Htext' Hint') as (b2 & H2).
    rewrite H1, H2. cbn [bind].
    rewrite <- (price_total_permutation _ _ Hperm), <- Hlen.
    destruct (truediv _ _) as [avg|e]; cbn [bind same_outcome]; [|reflexivity].
    destruct (count_dogs_permutation _ _ _ _ _ _ _ _ Htext Hperm H1 H2)
      as (Hl & Hf).
    unfold same_statistics.
    cbn [total_dogs unique_breeds breed_distribution total_inventory_value
         average_price].
    auto.
Qed.

Lemma stats_permutation_witness :
  same_outcome
    (stats [Scenario.lab_100; Scenario.lab_200; Scenario.poodle_missing])
    (stats [Scenario.poodle_missing; Scenario.lab_100; Scenario.lab_200]).
Proof.
  refine (proj2 (stats_permutation
                   [Scenario.lab_100; Scenario.lab_200; Scenario.poodle_missing]
                   [Scenario.poodle_missing; Scenario.lab_100; Scenario.lab_200]
                   _ _) _).
  - repeat constructor.
  - apply Permutation_sym. apply (Permutation_cons_append [_; _]).
  - repeat constructor.
Defined.

(** ** The query builder *)

(** A handler that selects, then answers 200 with what it got. *)
Lemma run_select store q (k : list dict -> response) :
  run store (try_except (dogs <- execute (Select q) ;; Return (k dogs))%prog
                        internal_error)
  = match store (Select q) with
    | Ok dogs => Ok (k dogs)
    | Raise e => Ok (JError (str_exn e), 500)
    end.
Proof. cbn. destruct (store (Select q)); reflexivity. Qed.

Section Listing.

Variable int : string -> option Z.
Variable float : string -> option Py.float.

(** [get_dogs] makes one call, the select of [dogs_query], and answers 200
    with the page and the records, or 500 when the store raises. *)
Lemma run_get_dogs store request :
  run store (get_dogs int float request)
  = match store (Select (dogs_query (page_of int request) (breeds_of request)
                           (min_price_of float request)
                           (max_price_of float request))) with
    | Ok dogs => Ok (JDogs (page_of int request) dogs, 200)
    | Raise e => Ok (JError (str_exn e), 500)
    end.
Proof.
  unfold get_dogs. cbv zeta.
  rewrite (run_select store _ (fun dogs => (JDogs _ dogs, 200))).
  fold (page_of int request). fold (breeds_of request).
  fold (min_price_of float request). fold (max_price_of float request).
  destruct (breeds_of request), (min_price_of float request),
    (max_price_of float request); reflexivity.
Qed.

End Listing.

Lemma matching_dogs_query page breeds min_price max_price r :
  Model.matching (dogs_query page breeds min_price max_price) r
  = wanted breeds min_price max_price r.
Proof.
  unfold Model.matching, dogs_query, dogs_filters, wanted. cbn [filters].
  destruct r as [i n im b p].
  destruct breeds as [|b0 bs], min_price as [lo|], max_price as [hi|];
    destruct b as [b|], p as [[p|p]|]; cbn;
    rewrite ?andb_true_r, ?andb_false_r, ?andb_assoc; reflexivity.
Qed.

(** *** The order of the store model *)

Lemma insert_by_id_permutation r l :
  Permutation (r :: l) (Model.insert_by_id r l).
Proof.
  induction l as [|r' l IH]; cbn; [reflexivity|].
  destruct (Model.id r <=? Model.id r'); [reflexivity|].
  rewrite perm_swap. now constructor.
Qed.

Lemma sort_by_id_permutation l : Permutation (Model.sort_by_id l) l.
Proof.
  induction l as [|r l IH]; cbn; [constructor|].
  rewrite <- insert_by_id_permutation. now constructor.
Qed.

Lemma insert_by_id_sorted r l :
  StronglySorted by_id l -> StronglySorted by_id (Model.insert_by_id r l).
Proof.
  induction 1 as [|r' l Hl IH Hall]; cbn.
  - repeat constructor.
  - destruct (Z.leb_spec (Model.id r) (Model.id r')) as [Hle|Hlt].
    + constructor; [now constructor|].
      constructor; [exact Hle|].
      eapply Forall_impl; [|exact Hall]. unfold by_id. intros; lia.
    + constructor; [exact IH|].
      apply (Permutation_Forall (insert_by_id_permutation r l)).
      constructor; [unfold by_id; lia|exact Hall].
Qed.

Lemma sort_by_id_sorted l : StronglySorted by_id (Model.sort_by_id l).
Proof.
  induction l as [|r l IH]; cbn; [constructor|now apply insert_by_id_sorted].
Qed.

(** What the model returns for the query of [get_dogs]: the window of 20
    records at the offset, in the ascending-id ordering of the wanted
    records. *)
Lemma select_rows_dogs_query tbl page breeds min_price max_price :
  Model.select_rows tbl (dogs_query page breeds min_price max_price)
  = firstn 20 (skipn (Z.to_nat ((page - 1) * 20))
                 (Model.sort_by_id (filter (wanted breeds min_price max_price) tbl))).
Proof.
  unfold Model.select_rows, Model.windowed, Model.ordered.
  cbn [window order_by dogs_query]. cbn [String.eqb Ascii.eqb Bool.eqb].
  replace (Z.to_nat ((page - 1) * 20 + 20 - 1 - (page - 1) * 20 + 1)) with 20%nat
    by lia.
  do 3 f_equal. apply filter_ext. intros r. apply matching_dogs_query.
Qed.

(** C3: against a store that holds [tbl], for every page [>= 1] the listing
    answers 200 with the page and at most 20 records; these are the records
    at the indices [(page-1)*20 .. (page-1)*20+19] of the wanted records in
    ascending order of [id] (those of them that exist), and there are none,
    with the same 200, when the offset reaches past the last wanted record. *)
Theorem get_dogs_window (int : string -> option Z)
    (float : string -> option Py.float)
    (store : Store.request -> except (list dict)) (tbl : list Model.row)
    (request : Flask.request) :
  Model.holds store tbl ->
  1 <= page_of int request ->
  let page := page_of int request in
  let offset := Z.to_nat ((page - 1) * 20) in
  let found := filter (wanted (breeds_of request) (min_price_of float request)
                              (max_price_of float request)) tbl in
  exists every rows,
    Permutation every found
    /\ StronglySorted by_id every
    /\ run store (get_dogs int float request)
       = Ok (JDogs page (map Model.row_to_dict rows), 200)
    /\ (List.length rows <= 20)%nat
    /\ List.length rows = Nat.min 20 (List.length every - offset)
    /\ (forall i, (i < 20)%nat ->
          nth_error rows i = nth_error every (offset + i))
    /\ ((List.length every <= offset)%nat -> rows = []).
Proof.
  intros Hholds Hpage page offset found.
  exists (Model.sort_by_id found), (firstn 20 (skipn offset (Model.sort_by_id found))).
  split; [apply sort_by_id_permutation|].
  split; [apply sort_by_id_sorted|].
  split.
  { rewrite run_get_dogs, Hholds, select_rows_dogs_query. reflexivity. }
  split; [apply firstn_le_length|].
  split; [now rewrite length_firstn, length_skipn|].
  split.
  - intros i Hi. rewrite nth_error_firstn, nth_error_skipn.
    destruct (Nat.ltb_spec i 20); [reflexivity|lia].
  - intros Hpast. now rewrite (skipn_all2 _ Hpast), firstn_nil.
Qed.

Lemma get_dogs_window_witness :
  exists rows,
    run (Model.read_only Sample.kennel)
        (get_dogs Sample.int Sample.float Sample.page_2)
    = Ok (JDogs 2 (map Model.row_to_dict rows), 200)
    /\ List.length rows = 5%nat.
Proof.
  assert (Hholds : Model.holds (Model.read_only Sample.kennel) Sample.kennel)
    by (intros q; reflexivity).
  assert (Hpage : 1 <= page_of Sample.int Sample.page_2)
    by (vm_compute; discriminate).
  destruct (get_dogs_window Sample.int Sample.float _ _ Sample.page_2 Hholds Hpage)
    as (every & rows & Hperm & _ & Hrun & _ & Hlen & _).
  exists rows. split; [exact Hrun|].
  rewrite Hlen, (Permutation_length Hperm). reflexivity.
Defined.

(** *** Queries that match nothing *)

Lemma xnum_leb_trans a b c :
  Model.xnum_leb a b = true -> Model.xnum_leb b c = true ->
  Model.xnum_leb a c = true.
Proof.
  destruct a as [|p| |], b as [|q| |], c as [|r| |]; cbn;
    try reflexivity; try discriminate.
  rewrite !Qle_bool_iff. apply Qle_trans.
Qed.

Lemma filter_nothing {A : Type} (f : A -> bool) (l : list A) :
  (forall x, In x l -> f x = false) -> filter f l = [].
Proof.
  induction l as [|x l IH]; intros H; cbn; [reflexivity|].
  rewrite (H x (or_introl eq_refl)). apply IH. intros y Hy. apply H. now right.
Qed.

Lemma str_in_In k l : str_in k l = true -> In k l.
Proof.
  unfold str_in. rewrite existsb_exists. intros (x & Hin & Heq).
  apply String.eqb_eq in Heq. now subst.
Qed.

Lemma wanted_crossed breeds lo hi r :
  exceeds lo hi -> wanted breeds (Some lo) (Some hi) r = false.
Proof.
  unfold exceeds, wanted. intros Hx.
  destruct (Model.price r) as [p|]; [|now rewrite andb_false_r].
  destruct (Model.xnum_leb (Model.xnum_of_float lo) (Model.xnum_of_number p)) eqn:Hlo;
    [|now rewrite andb_false_r].
  destruct (Model.xnum_leb (Model.xnum_of_number p) (Model.xnum_of_float hi)) eqn:Hhi;
    [|now rewrite andb_false_r].
  now rewrite (xnum_leb_trans _ _ _ Hlo Hhi) in Hx.
Qed.

Lemma wanted_absent breeds min_price max_price r :
  breeds <> [] ->
  (forall b, In b breeds -> Model.breed r <> Some b) ->
  wanted breeds min_price max_price r = false.
Proof.
  unfold wanted. intros Hne Habsent.
  destruct breeds as [|b0 bs]; [congruence|].
  destruct (Model.breed r) as [b|]; [|reflexivity].
  destruct (str_in b (b0 :: bs)) eqn:Hin; [|reflexivity].
  apply str_in_In in Hin. now destruct (Habsent b Hin).
Qed.

(** C7: against a store that holds [tbl], a listing whose [min_price] exceeds
    its [max_price], and a listing by a non-empty set of breeds none of which
    is the breed of a record of [tbl], both answer 200 with the page and an
    empty list of records. *)
Theorem get_dogs_nothing (int : string -> option Z)
    (float : string -> option Py.float)
    (store : Store.request -> except (list dict)) (tbl : list Model.row)
    (request : Flask.request) :
  Model.holds store tbl ->
  (exists lo hi,
      min_price_of float request = Some lo
      /\ max_price_of float request = Some hi
      /\ exceeds lo hi)
  \/ (breeds_of request <> []
      /\ forall r b, In r tbl -> In b (breeds_of request) ->
                     Model.breed r <> Some b) ->
  run store (get_dogs int float request)
  = Ok (JDogs (page_of int request) [], 200).
Proof.
  intros Hholds Hcase.
  rewrite run_get_dogs, Hholds, select_rows_dogs_query.
  rewrite filter_nothing; [now rewrite skipn_nil|].
  intros r Hr. destruct Hcase as [(lo & hi & -> & -> & Hx)|(Hne & Habsent)].
  - now apply wanted_crossed.
  - apply wanted_absent; [exact Hne|]. intros b. now apply Habsent.
Qed.

Lemma get_dogs_nothing_witness :
  run (Model.read_only Sample.kennel)
      (get_dogs Sample.int Sample.float Sample.crossed)
  = Ok (JDogs 1 [], 200)
  /\ run (Model.read_only Sample.kennel)
         (get_dogs Sample.int Sample.float Sample.poodles)
     = Ok (JDogs 1 [], 200).
Proof.
  assert (Hholds : Model.holds (Model.read_only Sample.kennel) Sample.kennel)
    by (intros q; reflexivity).
  split.
  - apply (get_dogs_nothing Sample.int Sample.float _ _ Sample.crossed Hholds).
    left. eexists; eexists. split; [reflexivity|]. split; [reflexivity|].
    reflexivity.
  - apply (get_dogs_nothing Sample.int Sample.float _ _ Sample.poodles Hholds).
    right. split; [discriminate|].
    intros r b Hr Hb.
    assert (Hbreed : Model.breed r = None \/ Model.breed r = Some "Lab").
    { revert r Hr. apply Forall_forall.
      repeat (constructor; [cbn; auto|]). constructor. }
    destruct Hb as [<-|[<-|[]]], Hbreed as [->| ->]; discriminate.
Defined.

(** ** The admin endpoints *)

Lemma get_json_ok request v :
  get_json request = Ok v -> is_json request = true /\ body request = Ok v.
Proof.
  unfold get_json. destruct (is_json request); [auto|discriminate].
Qed.

Lemma eq_str_true v s : eq_str v s = true <-> v = VStr s.
Proof.
  destruct v; cbn; try (split; [discriminate|intros [=]]).
  rewrite String.eqb_eq. split; [now intros ->|now intros [= ->]].
Qed.

(** C8: on a JSON object the login answers 200 with the configured token
    exactly when the username and the password it carries are the configured
    ones, and 403 with an error message, which carries no token, on every
    other pair. *)
Theorem admin_login_credentials (environ : list (string * string))
    (request : Flask.request) (d : dict) :
  get_json request = Ok (VDict d) ->
  let username := dict_get d "username" in
  let password := dict_get d "password" in
  let admin_username := environ_get environ "ADMIN_USERNAME" "admin" in
  let admin_password := environ_get environ "ADMIN_PASSWORD" "password" in
  let token := environ_get environ "ADMIN_TOKEN" "dummy_admin_token" in
  (username = VStr admin_username /\ password = VStr admin_password
   <-> admin_login environ request = Ok (JLogin token "Login successful", 200))
  /\ (~ (username = VStr admin_username /\ password = VStr admin_password)
      -> admin_login environ request = Ok (JError "Invalid credentials", 403)).
Proof.
  intros Hjson username password admin_username admin_password token.
  unfold admin_login. rewrite Hjson. cbn [bind get].
  fold username password admin_username admin_password token.
  destruct (eq_str username admin_username) eqn:Hu;
    destruct (eq_str password admin_password) eqn:Hp; cbn [andb].
  - apply eq_str_true in Hu, Hp. repeat split; auto. tauto.
  - assert (password <> VStr admin_password)
      by (rewrite <- eq_str_true; congruence).
    repeat split; try tauto; discriminate.
  - assert (username <> VStr admin_username)
      by (rewrite <- eq_str_true; congruence).
    repeat split; try tauto; discriminate.
  - assert (username <> VStr admin_username)
      by (rewrite <- eq_str_true; congruence).
    repeat split; try tauto; discriminate.
Qed.

Lemma admin_login_credentials_witness :
  admin_login [("ADMIN_PASSWORD", "s3cret"); ("ADMIN_TOKEN", "tok")]
    (json_request (VDict [("username", VStr "admin"); ("password", VStr "s3cret")]))
  = Ok (JLogin "tok" "Login successful", 200)
  /\ admin_login [("ADMIN_PASSWORD", "s3cret"); ("ADMIN_TOKEN", "tok")]
       (json_request (VDict [("username", VStr "admin"); ("password", VStr "password")]))
     = Ok (JError "Invalid credentials", 403).
Proof.
  split.
  - apply (admin_login_credentials
             [("ADMIN_PASSWORD", "s3cret"); ("ADMIN_TOKEN", "tok")]
             (json_request _)
             [("username", VStr "admin"); ("password", VStr "s3cret")]
             eq_refl).
    split; reflexivity.
  - apply (admin_login_credentials
             [("ADMIN_PASSWORD", "s3cret"); ("ADMIN_TOKEN", "tok")]
             (json_request _)
             [("username", VStr "admin"); ("password", VStr "password")]
             eq_refl).
    intros [_ H]. discriminate H.
Defined.

(** What [admin_dogs] does with a PUT whose body is a JSON object. *)
Lemma admin_dogs_put request d :
  get_json request = Ok (VDict d) ->
  admin_dogs PUT request
  = if negb (truthy (dict_get d "id")) then Return (JError "Missing dog id", 400)
    else
      match filter (fun kv => str_in (fst kv) update_fields) d with
      | [] => Return (JError "No valid fields to update", 400)
      | update_data =>
          Execute (Update "dogs" update_data ("id", dict_get d "id"))
            (fun r => try_except
                        (data <- lift r ;;
                         Return (JMessage "Dog updated" data, 200))%prog
                        internal_error)
      end.
Proof.
  intros Hjson. destruct (get_json_ok _ _ Hjson) as (His & _).
  unfold admin_dogs. rewrite His, Hjson. cbn.
  destruct (truthy (dict_get d "id")); cbn; [|reflexivity].
  destruct (filter _ d) as [|kv rest]; reflexivity.
Qed.

(** C9: on a PUT whose body is a JSON object the update data are exactly the
    entries of the body whose key is name, image, breed or price (so never
    [id] nor any other key); when the id is missing, or falsy, the answer is
    400 "Missing dog id" and when no entry is left it is 400 "No valid
    fields to update", in both cases without a call to the store; otherwise
    the one call made is the update of these entries on that id. *)
Theorem admin_dogs_put_allow_list (request : Flask.request) (d : dict) :
  get_json request = Ok (VDict d) ->
  let dog_id := dict_get d "id" in
  let update_data := filter (fun kv => str_in (fst kv) update_fields) d in
  (forall k v, In (k, v) update_data
               <-> In (k, v) d /\ In k ["name"; "image"; "breed"; "price"])
  /\ ~ In "id" (map fst update_data)
  /\ (dict_find "id" d = None \/ truthy dog_id = false ->
      admin_dogs PUT request = Return (JError "Missing dog id", 400))
  /\ (truthy dog_id = true -> update_data = [] ->
      admin_dogs PUT request = Return (JError "No valid fields to update", 400))
  /\ (truthy dog_id = true -> update_data <> [] ->
      forall store,
        calls store (admin_dogs PUT request)
        = [Update "dogs" update_data ("id", dog_id)]
        /\ run store (admin_dogs PUT request)
           = match store (Update "dogs" update_data ("id", dog_id)) with
             | Ok data => Ok (JMessage "Dog updated" data, 200)
             | Raise e => Ok (JError (str_exn e), 500)
             end).
Proof.
  intros Hjson dog_id update_data.
  assert (Hallow : forall k v, In (k, v) update_data
                     <-> In (k, v) d /\ In k ["name"; "image"; "breed"; "price"]).
  { intros k v. unfold update_data. rewrite filter_In. cbn [fst].
    unfold str_in, update_fields. rewrite existsb_exists.
    split; intros [Hin Hk]; (split; [exact Hin|]).
    - destruct Hk as (x & Hx & Heq). apply String.eqb_eq in Heq. now subst.
    - exists k. split; [exact Hk|apply String.eqb_refl]. }
  rewrite (admin_dogs_put _ _ Hjson). fold dog_id update_data.
  split; [exact Hallow|]. split; [|split; [|split]].
  - rewrite in_map_iff. intros ([k v] & Hk & Hin). cbn in Hk. subst k.
    apply Hallow in Hin. destruct Hin as [_ Hin]. cbn in Hin.
    repeat (destruct Hin as [Hin|Hin]; [discriminate|]). exact Hin.
  - intros [Hmissing|Hfalsy].
    + unfold dog_id, dict_get, dict_get_default. now rewrite Hmissing.
    + now rewrite Hfalsy.
  - intros -> ->. reflexivity.
  - intros -> Hne store. destruct update_data as [|kv rest]; [congruence|].
    cbn. destruct (store _); split; reflexivity.
Qed.

Lemma admin_dogs_put_allow_list_witness :
  admin_dogs PUT (json_request (VDict [("name", VStr "Rex"); ("price", VInt 5)]))
  = Return (JError "Missing dog id", 400)
  /\ admin_dogs PUT (json_request (VDict [("id", VInt 7); ("owner", VStr "me")]))
     = Return (JError "No valid fields to update", 400)
  /\ calls (fun _ => Ok [])
       (admin_dogs PUT
          (json_request (VDict [("id", VInt 7); ("owner", VStr "me");
                                ("price", VInt 5)])))
     = [Update "dogs" [("price", VInt 5)] ("id", VInt 7)].
Proof.
  split; [|split].
  - refine (proj1 (proj2 (proj2 (admin_dogs_put_allow_list
                                   (json_request _)
                                   [("name", VStr "Rex"); ("price", VInt 5)]
                                   eq_refl))) _).
    left. reflexivity.
  - refine (proj1 (proj2 (proj2 (proj2 (admin_dogs_put_allow_list
                                          (json_request _)
                                          [("id", VInt 7); ("owner", VStr "me")]
                                          eq_refl)))) _ _); reflexivity.
  - refine (proj1 (proj2 (proj2 (proj2 (proj2 (admin_dogs_put_allow_list
                                          (json_request _)
                                          [("id", VInt 7); ("owner", VStr "me");
                                           ("price", VInt 5)]
                                          eq_refl)))) _ _ (fun _ => Ok []))).
    + reflexivity.
    + discriminate.
Defined.

(** What [admin_dogs] does with a POST whose body is a JSON object. *)
Lemma admin_dogs_post request d :
  get_json request = Ok (VDict d) ->
  exists k,
    admin_dogs POST request
    = (if negb (all (map (dict_get d) required_fields))
       then Return (JError "Missing required fields", 400)
       else Execute (Insert "dogs" (map (fun f => (f, dict_get d f)) required_fields)) k)
    /\ forall r,
         k r = match r with
               | Ok data => Return (JMessage "Dog added successfully" data, 200)
               | Raise e => Return (JError ("Error adding dog: " ++ str_exn e), 500)
               end.
Proof.
  intros Hjson. destruct (get_json_ok _ _ Hjson) as (His & _).
  unfold admin_dogs. rewrite His, Hjson. cbn [negb lift get pbind].
  eexists. split.
  - cbn [map required_fields].
    destruct (negb (all _)); [reflexivity|]. cbn. reflexivity.
  - intros [data|e]; reflexivity.
Qed.

Lemma all_true l : all l = true <-> forall v, In v l -> truthy v = true.
Proof. unfold all. apply forallb_forall. Qed.

(** C10: on a POST whose body is a JSON object, when one of the values of
    name, image, breed and price is falsy (missing, null, 0, the empty
    string, ...) the answer is 400 "Missing required fields" and the store is
    not called; the store is called, with the insert of the four values, only
    when all four are truthy, so that the price of an inserted record is
    never 0. *)
Theorem admin_dogs_post_required (request : Flask.request) (d : dict) :
  get_json request = Ok (VDict d) ->
  ((exists f, In f required_fields /\ truthy (dict_get d f) = false) ->
   admin_dogs POST request = Return (JError "Missing required fields", 400))
  /\ (dict_get d "price" = VInt 0 \/ dict_get d "name" = VStr "" ->
      admin_dogs POST request = Return (JError "Missing required fields", 400))
  /\ (forall store rq,
        In rq (calls store (admin_dogs POST request)) ->
        rq = Insert "dogs" [("name", dict_get d "name");
                            ("image", dict_get d "image");
                            ("breed", dict_get d "breed");
                            ("price", dict_get d "price")]
        /\ (forall f, In f required_fields -> truthy (dict_get d f) = true)
        /\ dict_get d "price" <> VInt 0).
Proof.
  intros Hjson.
  destruct (admin_dogs_post _ _ Hjson) as (k & Hpost & Hk).
  assert (Hfalsy : (exists f, In f required_fields /\ truthy (dict_get d f) = false) ->
                   admin_dogs POST request
                   = Return (JError "Missing required fields", 400)).
  { intros (f & Hf & Hfalse). rewrite Hpost.
    destruct (all (map (dict_get d) required_fields)) eqn:Hall; [|reflexivity].
    rewrite all_true in Hall.
    rewrite (Hall (dict_get d f)) in Hfalse; [discriminate|].
    now apply in_map. }
  split; [exact Hfalsy|]. split.
  - intros [Hprice|Hname]; apply Hfalsy.
    + exists "price". split; [cbn; tauto|]. now rewrite Hprice.
    + exists "name". split; [cbn; tauto|]. now rewrite Hname.
  - intros store rq. rewrite Hpost.
    destruct (all (map (dict_get d) required_fields)) eqn:Hall; cbn [negb].
    + cbn [calls]. rewrite Hk.
      destruct (store _); cbn [calls]; (intros [<-|[]]).
      all: rewrite all_true in Hall.
      all: assert (Hfields : forall f, In f required_fields ->
                                       truthy (dict_get d f) = true)
             by (intros f Hf; apply Hall; now apply in_map).
      all: split; [reflexivity|split; [exact Hfields|]].
      all: intros Hzero;
           assert (Hp : truthy (dict_get d "price") = true)
             by (apply Hfields; cbn; tauto);
           now rewrite Hzero in Hp.
    + intros [].
Qed.

Lemma admin_dogs_post_required_witness :
  admin_dogs POST
    (json_request (VDict [("name", VStr "Rex"); ("image", VStr "rex.png");
                          ("breed", VStr "Lab"); ("price", VInt 0)]))
  = Return (JError "Missing required fields", 400).
Proof.
  refine (proj1 (proj2 (admin_dogs_post_required
                          (json_request _)
                          [("name", VStr "Rex"); ("image", VStr "rex.png");
                           ("breed", VStr "Lab"); ("price", VInt 0)]
                          eq_refl)) _).
  left. reflexivity.
Defined.

(** * Further properties *)

(** ** Running handlers *)

Lemma run_pbind {A B : Type} store (p : prog A) (f : A -> prog B) :
  run store (pbind p f) = bind (run store p) (fun a => run store (f a)).
Proof.
  induction p as [a|e|rq k IH]; cbn; [reflexivity|reflexivity|apply IH].
Qed.

Lemma run_try_except {A : Type} store (p : prog A) (h : exn -> prog A) :
  run store (try_except p h)
  = match run store p with
    | Ok a => Ok a
    | Raise e => run store (h e)
    end.
Proof.
  induction p as [a|e|rq k IH]; cbn; [reflexivity|reflexivity|apply IH].
Qed.

Lemma run_lift {A : Type} store (c : except A) : run store (lift c) = c.
Proof. destruct c; reflexivity. Qed.

Lemma run_execute store rq : run store (execute rq) = store rq.
Proof. unfold execute. cbn. apply run_lift. Qed.

Lemma calls_pbind {A B : Type} store (p : prog A) (f : A -> prog B) :
  calls store (pbind p f)
  = (calls store p
     ++ match run store p with
        | Ok a => calls store (f a)
        | Raise _ => []
        end)%list.
Proof.
  induction p as [a|e|rq k IH]; cbn; [reflexivity|reflexivity|].
  now rewrite IH.
Qed.

Lemma calls_try_except {A : Type} store (p : prog A) (h : exn -> prog A) :
  calls store (try_except p h)
  = (calls store p
     ++ match run store p with
        | Ok _ => []
        | Raise e => calls store (h e)
        end)%list.
Proof.
  induction p as [a|e|rq k IH]; cbn; [reflexivity|reflexivity|].
  now rewrite IH.
Qed.

Lemma calls_lift {A : Type} store (c : except A) : calls store (lift c) = [].
Proof. destruct c; reflexivity. Qed.

Lemma calls_execute store rq : calls store (execute rq) = [rq].
Proof. unfold execute. cbn. now rewrite calls_lift. Qed.

Lemma run_internal_error store e :
  run store (internal_error e) = Ok (JError (str_exn e), 500).
Proof. reflexivity. Qed.

Lemma calls_internal_error store e : calls store (internal_error e) = [].
Proof. reflexivity. Qed.

(** A view wrapped in [try: ... except Exception] answers whatever the store
    does: with what its body returns, or with 500 and the message of what its
    body raises. *)
Lemma run_view store (p : prog response) :
  run store (try_except p internal_error)
  = match run store p with
    | Ok r => Ok r
    | Raise e => Ok (JError (str_exn e), 500)
    end.
Proof. now rewrite run_try_except. Qed.

Lemma calls_view store (p : prog response) :
  calls store (try_except p internal_error) = calls store p.
Proof.
  rewrite calls_try_except. destruct (run store p); cbn; apply app_nil_r.
Qed.

(** ** The admin views, case by case *)

Lemma get_not_dict v k :
  (forall d, v <> VDict d) -> get v k = Raise (AttributeError (no_get v)).
Proof. intros H. destruct v; try reflexivity. now destruct (H d). Qed.

Lemma run_delete_id store request :
  run store (if is_json request
             then lift (json <- get_json request ;; get json "id")%except
             else Return (match args_get (args request) "id" with
                          | Some s => VStr s
                          | None => VNone
                          end))
  = delete_id request.
Proof.
  unfold delete_id. destruct (is_json request); [apply run_lift|reflexivity].
Qed.

Lemma calls_delete_id store request :
  calls store (if is_json request
               then lift (json <- get_json request ;; get json "id")%except
               else Return (match args_get (args request) "id" with
                            | Some s => VStr s
                            | None => VNone
                            end))
  = [].
Proof. destruct (is_json request); [apply calls_lift|reflexivity]. Qed.

Lemma admin_dogs_delete_run store request :
  run store (admin_dogs DELETE request)
  = match delete_id request with
    | Raise e => Ok (JError (str_exn e), 500)
    | Ok dog_id =>
        if truthy dog_id then
          match store (Delete "dogs" ("id", dog_id)) with
          | Ok data => Ok (JMessage "Dog deleted" data, 200)
          | Raise e => Ok (JError (str_exn e), 500)
          end
        else Ok (JError "Missing dog id", 400)
    end.
Proof.
  unfold admin_dogs. rewrite run_view, run_pbind, run_delete_id.
  destruct (delete_id request) as [i|e]; cbn [bind]; [|reflexivity].
  destruct (truthy i); cbn [negb]; [|reflexivity].
  rewrite run_pbind, run_execute. now destruct (store _).
Qed.

Lemma admin_dogs_delete_calls store request :
  calls store (admin_dogs DELETE request)
  = match delete_id request with
    | Raise e => []
    | Ok dog_id => if truthy dog_id then [Delete "dogs" ("id", dog_id)] else []
    end.
Proof.
  unfold admin_dogs.
  rewrite calls_view, calls_pbind, calls_delete_id, run_delete_id.
  destruct (delete_id request) as [i|e]; cbn [app]; [|reflexivity].
  destruct (truthy i); cbn [negb]; [|reflexivity].
  rewrite calls_pbind, calls_execute, run_execute. now destruct (store _).
Qed.

Lemma add_dogs_run store name image breed price :
  run store (add_dogs name image breed price)
  = match store (Insert "dogs" [("name", name); ("image", image);
                                ("breed", breed); ("price", price)]) with
    | Ok data => Ok data
    | Raise e => Raise (Exception ("Error adding dog: " ++ str_exn e))
    end.
Proof.
  unfold add_dogs. rewrite run_try_except, run_execute.
  now destruct (store _).
Qed.

Lemma add_dogs_calls store name image breed price :
  calls store (add_dogs name image breed price)
  = [Insert "dogs" [("name", name); ("image", image);
                    ("breed", breed); ("price", price)]].
Proof.
  unfold add_dogs. rewrite calls_try_except, calls_execute, run_execute.
  now destruct (store _).
Qed.

Lemma admin_dogs_post_run store request :
  run store (admin_dogs POST request)
  = if is_json request then
      match get_json request with
      | Raise e => Ok (JError (str_exn e), 500)
      | Ok (VDict d) =>
          if all (map (dict_get d) required_fields) then
            match store (Insert "dogs" (new_row d)) with
            | Ok data => Ok (JMessage "Dog added successfully" data, 200)
            | Raise e => Ok (JError ("Error adding dog: " ++ str_exn e), 500)
            end
          else Ok (JError "Missing required fields", 400)
      | Ok v => Ok (JError (no_get v), 500)
      end
    else Ok (JError "Request must be JSON", 400).
Proof.
  unfold admin_dogs. rewrite run_view.
  destruct (is_json request); cbn [negb]; [|reflexivity].
  destruct (get_json request) as [v|e]; [|reflexivity].
  destruct v; try reflexivity.
  cbn [lift get pbind map required_fields].
  destruct (all _); cbn [negb]; [|reflexivity].
  rewrite run_pbind, add_dogs_run. unfold new_row.
  now destruct (store _).
Qed.

Lemma admin_dogs_post_calls store request :
  calls store (admin_dogs POST request)
  = if is_json request then
      match get_json request with
      | Ok (VDict d) =>
          if all (map (dict_get d) required_fields)
          then [Insert "dogs" (new_row d)] else []
      | _ => []
      end
    else [].
Proof.
  unfold admin_dogs. rewrite calls_view.
  destruct (is_json request); cbn [negb]; [|reflexivity].
  destruct (get_json request) as [v|e]; [|reflexivity].
  destruct v; try reflexivity.
  cbn [lift get pbind map required_fields].
  destruct (all _); cbn [negb]; [|reflexivity].
  rewrite calls_pbind, add_dogs_calls, add_dogs_run. unfold new_row.
  now destruct (store _).
Qed.

Lemma admin_dogs_put_run store request :
  run store (admin_dogs PUT request)
  = if is_json request then
      match get_json request with
      | Raise e => Ok (JError (str_exn e), 500)
      | Ok (VDict d) =>
          if truthy (dict_get d "id") then
            match filter (fun kv => str_in (fst kv) update_fields) d with
            | [] => Ok (JError "No valid fields to update", 400)
            | update_data =>
                match store (Update "dogs" update_data ("id", dict_get d "id")) with
                | Ok data => Ok (JMessage "Dog updated" data, 200)
                | Raise e => Ok (JError (str_exn e), 500)
                end
            end
          else Ok (JError "Missing dog id", 400)
      | Ok v => Ok (JError (no_get v), 500)
      end
    else Ok (JError "Request must be JSON", 400).
Proof.
  unfold admin_dogs. rewrite run_view.
  destruct (is_json request); cbn [negb]; [|reflexivity].
  destruct (get_json request) as [v|e]; [|reflexivity].
  destruct v; try reflexivity.
  cbn [lift get items bind pbind].
  destruct (truthy _); cbn [negb]; [|reflexivity].
  destruct (filter _ d) as [|kv rest]; [reflexivity|].
  rewrite run_pbind, run_execute. now destruct (store _).
Qed.

Lemma admin_dogs_put_calls store request :
  calls store (admin_dogs PUT request)
  = if is_json request then
      match get_json request with
      | Ok (VDict d) =>
          if truthy (dict_get d "id") then
            match filter (fun kv => str_in (fst kv) update_fields) d with
            | [] => []
            | update_data => [Update "dogs" update_data ("id", dict_get d "id")]
            end
          else []
      | _ => []
      end
    else [].
Proof.
  unfold admin_dogs. rewrite calls_view.
  destruct (is_json request); cbn [negb]; [|reflexivity].
  destruct (get_json request) as [v|e]; [|reflexivity].
  destruct v; try reflexivity.
  cbn [lift get items bind pbind].
  destruct (truthy _); cbn [negb]; [|reflexivity].
  destruct (filter _ d) as [|kv rest]; [reflexivity|].
  rewrite calls_pbind, calls_execute, run_execute. now destruct (store _).
Qed.

(** ** What the admin views answer *)

(** X1: [admin_dogs] never lets an exception escape: whatever the method, the
    request and the behaviour of the store, it answers with a payload and a
    status that is 200, 400 or 500. *)
Theorem admin_dogs_answers (store : Store.request -> except (list dict))
    (method : http_method) (request : Flask.request) :
  exists payload code,
    run store (admin_dogs method request) = Ok (payload, code)
    /\ (code = 200 \/ code = 400 \/ code = 500).
Proof.
  destruct method;
    [rewrite admin_dogs_post_run|rewrite admin_dogs_delete_run
    |rewrite admin_dogs_put_run].
  - destruct (is_json request); [|eauto 6].
    destruct (get_json request) as [v|e]; [|eauto 6].
    destruct v; eauto 6.
    destruct (all _); [|eauto 6]. destruct (store _); eauto 6.
  - destruct (delete_id request) as [i|e]; [|eauto 6].
    destruct (truthy i); [|eauto 6]. destruct (store _); eauto 6.
  - destruct (is_json request); [|eauto 6].
    destruct (get_json request) as [v|e]; [|eauto 6].
    destruct v; eauto 6.
    destruct (truthy _); [|eauto 6].
    destruct (filter _ d); [eauto 6|]. destruct (store _); eauto 6.
Qed.

(** X2: [admin_dogs] calls the store at most once, and only with the
    operation of its method on the table "dogs": a delete or an update keyed
    by a truthy id (the update with a non-empty set of allowed fields), or
    the insert of the four required values, all truthy.  An answer of 400
    is never preceded by a call. *)
Theorem admin_dogs_store_calls (store : Store.request -> except (list dict))
    (method : http_method) (request : Flask.request) :
  (calls store (admin_dogs method request) = []
   \/ exists rq,
        calls store (admin_dogs method request) = [rq]
        /\ match method with
           | DELETE => exists i, rq = Delete "dogs" ("id", i) /\ truthy i = true
           | POST =>
               exists d, rq = Insert "dogs" (new_row d)
                         /\ all (map (dict_get d) required_fields) = true
           | PUT =>
               exists data i,
                 rq = Update "dogs" data ("id", i)
                 /\ truthy i = true
                 /\ data <> []
                 /\ forall kv, In kv data -> In (fst kv) update_fields
           end)
  /\ (forall payload,
        run store (admin_dogs method request) = Ok (payload, 400) ->
        calls store (admin_dogs method request) = []).
Proof.
  destruct method.
  - rewrite admin_dogs_post_run, admin_dogs_post_calls.
    destruct (is_json request); [|auto].
    destruct (get_json request) as [v|e]; [|auto].
    destruct v; auto.
    destruct (all _) eqn:Hall; [|auto]. split.
    + right. eexists. split; [reflexivity|]. exists d. auto.
    + intros payload. destruct (store _); discriminate.
  - rewrite admin_dogs_delete_run, admin_dogs_delete_calls.
    destruct (delete_id request) as [i|e]; [|auto].
    destruct (truthy i) eqn:Hid; [|auto]. split.
    + right. eexists. split; [reflexivity|]. exists i. auto.
    + intros payload. destruct (store _); discriminate.
  - rewrite admin_dogs_put_run, admin_dogs_put_calls.
    destruct (is_json request); [|auto].
    destruct (get_json request) as [v|e]; [|auto].
    destruct v; auto.
    destruct (truthy _) eqn:Hid; [|auto].
    destruct (filter _ d) as [|kv rest] eqn:Hdata; [auto|]. split.
    + right. eexists. split; [reflexivity|].
      exists (kv :: rest), (dict_get d "id").
      repeat split; auto; [discriminate|].
      intros x Hx. rewrite <- Hdata in Hx. apply filter_In in Hx.
      now apply str_in_In.
    + intros payload. destruct (store _); discriminate.
Qed.

(** ** The dashboard view *)


(** X4: one record with a null price among those the store returns is enough
    for the dashboard to answer 500, whatever the other records are. *)
Theorem dashboard_null_price (store : Store.request -> except (list dict))
    (dogs : list dict) (dog : dict) :
  store (Select (select "dogs" "*")) = Ok dogs ->
  In dog dogs ->
  dict_find "price" dog = Some VNone ->
  exists msg, run store dashboard = Ok (JError msg, 500).
Proof.
  intros Hstore Hin Hnull.
  unfold dashboard. rewrite run_view, run_pbind, run_execute, Hstore.
  cbn [bind]. rewrite run_pbind, run_lift.
  destruct (stats_null_price dogs dog Hin Hnull) as (e & ->). cbn [bind]. eauto.
Qed.

Lemma dashboard_null_price_witness :
  exists msg,
    run (fun _ => Ok [Scenario.lab_100; Scenario.poodle_null]) dashboard
    = Ok (JError msg, 500).
Proof.
  apply (dashboard_null_price _ [Scenario.lab_100; Scenario.poodle_null]
           Scenario.poodle_null eq_refl).
  - right. left. reflexivity.
  - reflexivity.
Defined.

(** ** More on the aggregator *)

Lemma bump_counted k d : Forall counted d -> Forall counted (bump k d).
Proof.
  unfold bump, counted.
  induction d as [|[k' n] d IH]; cbn [kdict_find kdict_set]; intros Hd.
  - repeat constructor. cbn. lia.
  - inversion Hd as [|? ? Hn Hd']; subst. cbn [snd] in Hn.
    destruct (key_eqb k' k) eqn:E.
    + cbn [kdict_set]. rewrite ?E. constructor; [cbn; lia|exact Hd'].
    + specialize (IH Hd').
      destruct (kdict_find k d); cbn [kdict_set]; rewrite ?E;
        (constructor; [exact Hn|exact IH]).
Qed.

Lemma bump_length k d : len d <= len (bump k d) /\ 1 <= len (bump k d).
Proof.
  unfold bump, len.
  induction d as [|[k' n] d IH]; cbn [kdict_find kdict_set].
  - cbn. lia.
  - destruct (key_eqb k' k) eqn:E.
    + cbn [kdict_set]. rewrite ?E. cbn [List.length]. lia.
    + destruct (kdict_find k d); cbn [kdict_set] in *; rewrite ?E;
        cbn [List.length]; lia.
Qed.

Lemma count_dogs_counted dogs : forall breeds total breeds' total',
  count_dogs dogs breeds total = Ok (breeds', total') ->
  Forall counted breeds ->
  Forall counted breeds'
  /\ len breeds <= len breeds'
  /\ (dogs <> [] -> 1 <= len breeds').
Proof.
  induction dogs as [|dog rest IH]; intros b t b' t' H Hb; cbn in H.
  - injection H as <- <-. repeat split; [exact Hb|lia|congruence].
  - destruct (count_dog dog b t) as [[b1 t1]|e] eqn:E; cbn [bind] in H;
      [|discriminate].
    apply count_dog_ok in E as (t2 & _ & [= -> ->]).
    destruct (IH _ _ _ _ H (bump_counted _ _ Hb)) as (Hc & Hlen & _).
    pose proof (bump_length (breed_of dog) b).
    repeat split; [exact Hc|lia|intros _; lia].
Qed.

Lemma counted_total d :
  Forall counted d ->
  len d <= kdict_total d
  /\ forall k n, In (k, n) d -> 1 <= n <= kdict_total d.
Proof.
  unfold len, counted.
  induction 1 as [|[k' m] d Hm Hd (IHlen & IHin)]; cbn [snd] in *.
  - cbn. split; [lia|intros ? ? []].
  - cbn [kdict_total List.length]. split; [lia|].
    intros k n [[= <- <-]|Hin]; [lia|].
    specialize (IHin k n Hin). lia.
Qed.

(** X5: in the statistics of any record sequence every count of
    [breed_distribution] lies between 1 and [total_dogs], and [unique_breeds]
    between 0 and [total_dogs]; it is at least 1 when there is a record. *)
Theorem stats_counts_bounds (dogs : list dict) (s : statistics) :
  stats dogs = Ok s ->
  0 <= unique_breeds s <= total_dogs s
  /\ (dogs <> [] -> 1 <= unique_breeds s)
  /\ forall k n, In (k, n) (breed_distribution s) -> 1 <= n <= total_dogs s.
Proof.
  intros Hs. destruct dogs as [|dog0 rest0].
  { injection Hs as <-. cbn. repeat split; try lia; try congruence; tauto. }
  unfold stats, general_stats in Hs. set (dogs := dog0 :: rest0) in *.
  destruct (count_dogs dogs [] (VInt 0)) as [[breeds total]|e] eqn:Hcount;
    cbn [bind] in Hs; [|discriminate].
  destruct (truediv total (VInt (len dogs))) as [avg|e];
    cbn [bind] in Hs; [|discriminate].
  injection Hs as <-. cbn [breed_distribution total_dogs unique_breeds].
  destruct (count_dogs_counted _ _ _ _ _ Hcount (Forall_nil _))
    as (Hc & _ & Hne).
  destruct (counted_total _ Hc) as (Hlen & Hin).
  pose proof (count_dogs_total _ _ _ _ _ Hcount) as Htotal.
  cbn [kdict_total] in Htotal. rewrite Z.add_0_l in Htotal.
  rewrite <- Htotal. split; [|split].
  - unfold len in *. lia.
  - intros _. apply Hne. discriminate.
  - exact Hin.
Qed.

Lemma stats_counts_bounds_witness :
  0 <= unique_breeds Kennel.statistics <= total_dogs Kennel.statistics
  /\ 1 <= unique_breeds Kennel.statistics.
Proof.
  destruct (stats_counts_bounds Kennel.dogs Kennel.statistics eq_refl)
    as (Hu & Hne & _).
  split; [exact Hu|]. apply Hne. discriminate.
Defined.

Lemma count_dogs_int_total dogs : forall breeds t breeds' total',
  int_prices dogs ->
  count_dogs dogs breeds (VInt t) = Ok (breeds', total') ->
  total' = VInt (t + price_total dogs).
Proof.
  induction dogs as [|dog rest IH]; intros b t b' t' Hint H; cbn in H.
  - injection H as _ <-. cbn. now rewrite Z.add_0_r.
  - inversion Hint as [|? ? Hp Hint']; subst.
    destruct (count_dog dog b (VInt t)) as [[b1 t1]|e] eqn:E; cbn [bind] in H;
      [|discriminate].
    apply count_dog_ok in E as (t2 & Hadd & [= -> ->]).
    rewrite (iadd_int _ _ Hp) in Hadd. injection Hadd as <-.
    rewrite (IH _ _ _ _ Hint' H). cbn [price_total]. f_equal. lia.
Qed.

(** X6: when every price is an int or missing, the [total_inventory_value]
    of the statistics is the exact sum of the prices, a missing price
    counting for 0. *)
Theorem stats_int_total (dogs : list dict) (s : statistics) :
  int_prices dogs ->
  stats dogs = Ok s ->
  total_inventory_value s = VInt (price_total dogs)
  /\ total_dogs s = len dogs.
Proof.
  intros Hint Hs. destruct dogs as [|dog0 rest0].
  { injection Hs as <-. split; reflexivity. }
  unfold stats, general_stats in Hs. set (dogs := dog0 :: rest0) in *.
  destruct (count_dogs dogs [] (VInt 0)) as [[breeds total]|e] eqn:Hcount;
    cbn [bind] in Hs; [|discriminate].
  destruct (truediv total (VInt (len dogs))) as [avg|e];
    cbn [bind] in Hs; [|discriminate].
  injection Hs as <-. cbn [total_inventory_value total_dogs].
  split; [|reflexivity].
  now rewrite (count_dogs_int_total _ _ _ _ _ Hint Hcount).
Qed.

Lemma stats_int_total_witness :
  total_inventory_value Kennel.statistics = VInt (5 + (7 + (9 + 0))).
Proof.
  refine (proj1 (stats_int_total Kennel.dogs Kennel.statistics _ eq_refl)).
  repeat constructor.
Defined.

Lemma count_dog_accepts dog breeds total r :
  count_dog dog breeds total = Ok r ->
  hashable (breed_of dog) = true.
Proof.
  unfold count_dog, breed_of.
  destruct (dict_get dog "breed"); cbn; try reflexivity; discriminate.
Qed.

Lemma iadd_number total p total' :
  is_number total = true ->
  iadd total p = Ok total' ->
  is_number p = true /\ is_number total' = true.
Proof.
  unfold is_number, iadd.
  destruct (as_number total) as [[x|x]|] eqn:Ht; [| |discriminate]; intros _;
    destruct (as_number p) as [[y|y]|] eqn:Hp.
  1, 5: intros [= <-]; auto.
  1: destruct (float_of_int x); cbn [bind]; [intros [= <-]; auto|discriminate].
  2: destruct (float_of_int y); cbn [bind]; [intros [= <-]; auto|discriminate].
  all: destruct total; try discriminate; destruct p; discriminate.
Qed.

Lemma count_dogs_accepts dogs : forall breeds total r,
  is_number total = true ->
  count_dogs dogs breeds total = Ok r ->
  forall dog, In dog dogs ->
    hashable (breed_of dog) = true /\ is_number (price_of dog) = true.
Proof.
  induction dogs as [|dog rest IH]; intros b t r Ht H d Hin; [destruct Hin|].
  cbn in H.
  destruct (count_dog dog b t) as [[b1 t1]|e] eqn:E; cbn [bind] in H;
    [|discriminate].
  pose proof (count_dog_accepts _ _ _ _ E) as Hhash.
  apply count_dog_ok in E as (t2 & Hadd & [= -> ->]).
  destruct (iadd_number _ _ _ Ht Hadd) as (Hp & Ht2).
  destruct Hin as [<-|Hin]; [auto|].
  exact (IH _ _ _ Ht2 H d Hin).
Qed.

(** X7: the aggregator produces statistics only when every record has a
    hashable breed and a price that is a number (or no price): a null or text
    price, or a list or object as breed, in any record makes it raise. *)
Theorem stats_accepts (dogs : list dict) (s : statistics) :
  stats dogs = Ok s ->
  forall dog, In dog dogs ->
    hashable (breed_of dog) = true /\ is_number (price_of dog) = true.
Proof.
  intros Hs. destruct dogs as [|dog0 rest0]; [intros ? []|].
  unfold stats, general_stats in Hs.
  destruct (count_dogs (dog0 :: rest0) [] (VInt 0)) as [r|e] eqn:Hcount;
    [|discriminate].
  exact (count_dogs_accepts _ [] (VInt 0) r eq_refl Hcount).
Qed.

Lemma stats_accepts_witness :
  hashable (breed_of Kennel.no_breed) = true
  /\ is_number (price_of Kennel.no_breed) = true.
Proof.
  apply (stats_accepts Kennel.dogs Kennel.statistics eq_refl).
  right. right. left. reflexivity.
Defined.

Lemma check_hashable_ok v : hashable v = true -> check_hashable v = Ok tt.
Proof. destruct v; try discriminate; reflexivity. Qed.

Lemma count_dogs_int_returns dogs : forall breeds t,
  Forall (fun dog => hashable (breed_of dog) = true) dogs ->
  int_prices dogs ->
  exists breeds',
    count_dogs dogs breeds (VInt t) = Ok (breeds', VInt (t + price_total dogs)).
Proof.
  induction dogs as [|dog rest IH]; intros b t Hhash Hint.
  - exists b. cbn. now rewrite Z.add_0_r.
  - inversion Hhash as [|? ? Hb Hhash']; inversion Hint as [|? ? Hp Hint']; subst.
    destruct (IH (bump (breed_of dog) b) (t + int_of (price_of dog)) Hhash' Hint')
      as (b' & Hrest).
    exists b'. cbn [count_dogs price_total]. unfold count_dog.
    fold (breed_of dog). fold (price_of dog).
    rewrite (check_hashable_ok _ Hb). cbn [bind].
    rewrite (iadd_int _ _ Hp). cbn [bind].
    fold (bump (breed_of dog) b). rewrite Hrest. do 3 f_equal. lia.
Qed.

Lemma int_truediv_outcome a b :
  b <> 0 ->
  (exists f, int_truediv a b = Ok f)
  \/ int_truediv a b
     = Raise (OverflowError "integer division result too large for a float").
Proof.
  intros Hb. unfold int_truediv.
  destruct (Z.eqb_spec b 0); [contradiction|].
  destruct (a =? 0); [eauto|].
  destruct (Z.div_eucl _ _) as [q r].
  destruct (binary_normalize _ _ _ _ _); eauto.
Qed.

(** X8: on records with hashable breeds and int (or missing) prices the
    aggregator raises neither TypeError nor ZeroDivisionError: it produces
    statistics, unless the total is too large for the average to be a float,
    in which case it raises OverflowError. *)
Theorem stats_int_returns (dogs : list dict) :
  Forall (fun dog => hashable (breed_of dog) = true) dogs ->
  int_prices dogs ->
  (exists s, stats dogs = Ok s)
  \/ stats dogs
     = Raise (OverflowError "integer division result too large for a float").
Proof.
  intros Hhash Hint. destruct dogs as [|dog0 rest0]; [left; now eexists|].
  unfold stats, general_stats.
  destruct (count_dogs_int_returns _ [] 0 Hhash Hint) as (b & ->).
  cbn [bind truediv as_number].
  destruct (int_truediv_outcome (0 + price_total (dog0 :: rest0))
              (len (dog0 :: rest0))) as [(f & ->)| ->].
  - unfold len. cbn [List.length]. lia.
  - left. cbn [bind]. now eexists.
  - right. reflexivity.
Qed.

Lemma stats_int_returns_witness :
  (exists s, stats Kennel.dogs = Ok s)
  \/ stats Kennel.dogs
     = Raise (OverflowError "integer division result too large for a float").
Proof.
  apply (stats_int_returns Kennel.dogs); repeat constructor.
Defined.

(** ** More on the listing *)

Lemma calls_select store q (k : list dict -> response) :
  calls store (try_except (dogs <- execute (Select q) ;; Return (k dogs))%prog
                          internal_error)
  = [Select q].
Proof. cbn. destruct (store (Select q)); reflexivity. Qed.

Lemma calls_get_dogs int float store request :
  calls store (get_dogs int float request)
  = [Select (dogs_query (page_of int request) (breeds_of request)
               (min_price_of float request) (max_price_of float request))].
Proof.
  unfold get_dogs. cbv zeta.
  rewrite (calls_select store _ (fun dogs => (JDogs _ dogs, 200))).
  fold (page_of int request). fold (breeds_of request).
  fold (min_price_of float request). fold (max_price_of float request).
  destruct (breeds_of request), (min_price_of float request),
    (max_price_of float request); reflexivity.
Qed.

(** X9: [get_dogs] never raises and calls the store exactly once, with a
    select on "dogs" ordered by id whose range is
    [(page-1)*20 .. (page-1)*20+19] for whatever page it read (a page below 1
    is not clamped, the range then starts below 0) and whose filters bear on
    breed and price only; it answers 200 with the page and the records, or
    500 with the message when the store raises. *)
Theorem get_dogs_one_select (int : string -> option Z)
    (float : string -> option Py.float)
    (store : Store.request -> except (list dict)) (request : Flask.request) :
  let page := page_of int request in
  exists q,
    calls store (get_dogs int float request) = [Select q]
    /\ table q = "dogs" /\ columns q = "*" /\ order_by q = Some "id"
    /\ window q = Some ((page - 1) * 20, (page - 1) * 20 + 19)
    /\ (forall c, In c (filters q) ->
          (c = In_ "breed" (breeds_of request) /\ breeds_of request <> [])
          \/ (exists b, c = Gte "price" b /\ min_price_of float request = Some b)
          \/ (exists b, c = Lte "price" b /\ max_price_of float request = Some b))
    /\ run store (get_dogs int float request)
       = match store (Select q) with
         | Ok dogs => Ok (JDogs page dogs, 200)
         | Raise e => Ok (JError (str_exn e), 500)
         end.
Proof.
  intros page. eexists. split; [apply calls_get_dogs|].
  cbn [table columns order_by window filters dogs_query].
  split; [reflexivity|]. split; [reflexivity|]. split; [reflexivity|].
  split; [do 2 f_equal; lia|]. split; [|apply run_get_dogs].
  intros c. unfold dogs_filters. rewrite !in_app_iff.
  destruct (breeds_of request) as [|b0 bs];
    destruct (min_price_of float request) as [lo|];
    destruct (max_price_of float request) as [hi|]; cbn [In];
    intros [Hc|[Hc|Hc]]; try contradiction;
    destruct Hc as [<-|[]]; eauto.
  all: left; split; [reflexivity|discriminate].
Qed.

Lemma args_get_type_rejected {A : Type} a k (default : A) t :
  (forall s, args_get a k = Some s -> t s = None) ->
  args_get_type a k default t = default.
Proof.
  intros H. unfold args_get_type.
  destruct (args_get a k) as [s|]; [|reflexivity].
  now rewrite (H s eq_refl).
Qed.

(** X10: a query parameter that [int] or [float] rejects is dropped without
    an error: with such a [page] the listing is that of page 1, and with such
    a [min_price] or [max_price] the select carries no lower, respectively
    upper, bound on the price. *)
Theorem get_dogs_rejected_parameters (int : string -> option Z)
    (float : string -> option Py.float)
    (store : Store.request -> except (list dict)) (request : Flask.request) :
  ((forall s, args_get (args request) "page" = Some s -> int s = None) ->
   exists q,
     calls store (get_dogs int float request) = [Select q]
     /\ window q = Some (0, 19)
     /\ run store (get_dogs int float request)
        = match store (Select q) with
          | Ok dogs => Ok (JDogs 1 dogs, 200)
          | Raise e => Ok (JError (str_exn e), 500)
          end)
  /\ ((forall s, args_get (args request) "min_price" = Some s -> float s = None) ->
      forall q b, In (Select q) (calls store (get_dogs int float request)) ->
                  ~ In (Gte "price" b) (filters q))
  /\ ((forall s, args_get (args request) "max_price" = Some s -> float s = None) ->
      forall q b, In (Select q) (calls store (get_dogs int float request)) ->
                  ~ In (Lte "price" b) (filters q)).
Proof.
  split; [|split].
  - intros Hpage.
    assert (Hp : page_of int request = 1)
      by (apply args_get_type_rejected; exact Hpage).
    eexists. split; [apply calls_get_dogs|]. rewrite run_get_dogs, Hp.
    split; reflexivity.
  - intros Hmin q b. rewrite calls_get_dogs. intros [[= <-]|[]].
    assert (Hm : min_price_of float request = None).
    { apply args_get_type_rejected. intros s Hs. now rewrite (Hmin s Hs). }
    cbn [filters dogs_query]. unfold dogs_filters. rewrite Hm, !in_app_iff.
    destruct (breeds_of request), (max_price_of float request); cbn [In];
      intros [H|[H|H]]; try contradiction; destruct H as [H|[]]; discriminate.
  - intros Hmax q b. rewrite calls_get_dogs. intros [[= <-]|[]].
    assert (Hm : max_price_of float request = None).
    { apply args_get_type_rejected. intros s Hs. now rewrite (Hmax s Hs). }
    cbn [filters dogs_query]. unfold dogs_filters. rewrite Hm, !in_app_iff.
    destruct (breeds_of request), (min_price_of float request); cbn [In];
      intros [H|[H|H]]; try contradiction; destruct H as [H|[]]; discriminate.
Qed.

Lemma get_dogs_rejected_parameters_witness :
  exists q,
    calls (Model.read_only Sample.kennel)
      (get_dogs Sample.int Sample.float (plain_request [("page", "two")]))
    = [Select q]
    /\ window q = Some (0, 19)
    /\ run (Model.read_only Sample.kennel)
         (get_dogs Sample.int Sample.float (plain_request [("page", "two")]))
       = match Model.read_only Sample.kennel (Select q) with
         | Ok dogs => Ok (JDogs 1 dogs, 200)
         | Raise e => Ok (JError (str_exn e), 500)
         end.
Proof.
  apply (get_dogs_rejected_parameters Sample.int Sample.float
           (Model.read_only Sample.kennel) (plain_request [("page", "two")])).
  intros s [= <-]. reflexivity.
Defined.




(** ** More on the login *)

Lemma environ_get_absent environ k default :
  (forall v, ~ In (k, v) environ) -> environ_get environ k default = default.
Proof.
  induction environ as [|[k' v] rest IH]; intros H; cbn; [reflexivity|].
  destruct (String.eqb_spec k' k) as [->|_].
  - destruct (H v). now left.
  - apply IH. intros v' Hin. apply (H v'). now right.
Qed.

(** X12: [admin_login] answers, with 200 or 403, exactly when the request is
    JSON and its body an object; otherwise it raises, and nothing in the view
    catches it: the exception of the decoding, or an AttributeError for a
    body that is not an object. *)
Theorem admin_login_raises (environ : list (string * string))
    (request : Flask.request) :
  match get_json request with
  | Ok (VDict d) =>
      exists payload code,
        admin_login environ request = Ok (payload, code)
        /\ (code = 200 \/ code = 403)
  | Ok v => admin_login environ request = Raise (AttributeError (no_get v))
  | Raise e => admin_login environ request = Raise e
  end.
Proof.
  unfold admin_login.
  destruct (get_json request) as [v|e]; [|reflexivity].
  destruct v; try reflexivity.
  cbn [bind get]. destruct (_ && _); eauto.
Qed.

(** X13: when the environment sets none of ADMIN_USERNAME, ADMIN_PASSWORD and
    ADMIN_TOKEN, the login accepts the username "admin" with the password
    "password" and hands out the token "dummy_admin_token". *)
Theorem admin_login_defaults (environ : list (string * string))
    (request : Flask.request) (d : dict) :
  (forall v, ~ In ("ADMIN_USERNAME", v) environ) ->
  (forall v, ~ In ("ADMIN_PASSWORD", v) environ) ->
  (forall v, ~ In ("ADMIN_TOKEN", v) environ) ->
  get_json request = Ok (VDict d) ->
  dict_get d "username" = VStr "admin" ->
  dict_get d "password" = VStr "password" ->
  admin_login environ request
  = Ok (JLogin "dummy_admin_token" "Login successful", 200).
Proof.
  intros Hu Hp Ht Hjson Huser Hpass.
  unfold admin_login. rewrite Hjson. cbn [bind get].
  rewrite Huser, Hpass, !environ_get_absent by assumption.
  reflexivity.
Qed.

Lemma admin_login_defaults_witness :
  admin_login [("PORT", "5000")]
    (json_request (VDict [("username", VStr "admin");
                          ("password", VStr "password")]))
  = Ok (JLogin "dummy_admin_token" "Login successful", 200).
Proof.
  apply (admin_login_defaults [("PORT", "5000")] (json_request _)
           [("username", VStr "admin"); ("password", VStr "password")]);
    try reflexivity;
    intros v [H|[]]; discriminate H.
Defined.

(** ** More on the admin views *)

(** X14: a DELETE that is not JSON takes the id from the query string, as
    text, and does not look at the body: without an [id] parameter, or with
    an empty one, it answers 400 "Missing dog id" and the store is not
    called; otherwise it makes the one call that deletes on that id and
    answers 200 with what the store returned, or 500 when the store
    raises. *)
Theorem admin_dogs_delete_query_string
    (store : Store.request -> except (list dict)) (request : Flask.request) :
  is_json request = false ->
  (args_get (args request) "id" = None \/ args_get (args request) "id" = Some "" ->
   admin_dogs DELETE request = Return (JError "Missing dog id", 400))
  /\ (forall s, args_get (args request) "id" = Some s -> s <> "" ->
      calls store (admin_dogs DELETE request) = [Delete "dogs" ("id", VStr s)]
      /\ run store (admin_dogs DELETE request)
         = match store (Delete "dogs" ("id", VStr s)) with
           | Ok data => Ok (JMessage "Dog deleted" data, 200)
           | Raise e => Ok (JError (str_exn e), 500)
           end).
Proof.
  intros Hjson. split.
  - intros Hid. unfold admin_dogs. rewrite Hjson.
    destruct Hid as [-> | ->]; reflexivity.
  - intros s Hs Hne.
    rewrite admin_dogs_delete_calls, admin_dogs_delete_run.
    unfold delete_id. rewrite Hjson, Hs. cbn [truthy].
    destruct (String.eqb_spec s ""); [contradiction|]. cbn [negb].
    split; reflexivity.
Qed.

Lemma admin_dogs_delete_query_string_witness :
  admin_dogs DELETE (plain_request []) = Return (JError "Missing dog id", 400)
  /\ calls (fun _ => Ok []) (admin_dogs DELETE (plain_request [("id", "7")]))
     = [Delete "dogs" ("id", VStr "7")].
Proof.
  split.
  - refine (proj1 (admin_dogs_delete_query_string (fun _ => Ok [])
                     (plain_request []) eq_refl) _).
    left. reflexivity.
  - refine (proj1 (proj2 (admin_dogs_delete_query_string (fun _ => Ok [])
                            (plain_request [("id", "7")]) eq_refl)
                     "7" eq_refl _)).
    discriminate.
Defined.

(** X15: a DELETE whose body is a JSON object takes the id from the body and
    ignores the query string: when the body has no [id], or a falsy one, the
    answer is 400 "Missing dog id" without a call, also when the query
    string names an id; otherwise the one call deletes on the id of the
    body. *)
Theorem admin_dogs_delete_json
    (store : Store.request -> except (list dict)) (request : Flask.request)
    (d : dict) :
  get_json request = Ok (VDict d) ->
  (truthy (dict_get d "id") = false ->
   admin_dogs DELETE request = Return (JError "Missing dog id", 400))
  /\ (truthy (dict_get d "id") = true ->
      calls store (admin_dogs DELETE request)
      = [Delete "dogs" ("id", dict_get d "id")]
      /\ run store (admin_dogs DELETE request)
         = match store (Delete "dogs" ("id", dict_get d "id")) with
           | Ok data => Ok (JMessage "Dog deleted" data, 200)
           | Raise e => Ok (JError (str_exn e), 500)
           end).
Proof.
  intros Hjson. destruct (get_json_ok _ _ Hjson) as (His & _). split.
  - intros Hid. unfold admin_dogs. rewrite His, Hjson.
    cbn [bind get lift pbind]. rewrite Hid. reflexivity.
  - intros Hid. rewrite admin_dogs_delete_calls, admin_dogs_delete_run.
    unfold delete_id. rewrite His, Hjson. cbn [bind get]. rewrite Hid.
    split; reflexivity.
Qed.

Lemma admin_dogs_delete_json_witness :
  admin_dogs DELETE
    {| is_json := true; body := Ok (VDict [("name", VStr "Rex")]);
       args := [("id", "7")] |}
  = Return (JError "Missing dog id", 400).
Proof.
  refine (proj1 (admin_dogs_delete_json (fun _ => Ok [])
                   {| is_json := true; body := Ok (VDict [("name", VStr "Rex")]);
                      args := [("id", "7")] |}
                   [("name", VStr "Rex")] eq_refl) _).
  reflexivity.
Defined.

(** X16: malformed requests never reach the store.  A POST or a PUT that is
    not JSON is answered 400 "Request must be JSON", whatever its body and
    its query string.  A JSON request whose body does not decode, or decodes
    to something that is not an object (a list, a string, a number, null,
    ...), is answered 500 by every method: with the message of the decoding
    error, respectively of the AttributeError that [.get] raises on such a
    value. *)
Theorem admin_dogs_malformed (method : http_method) (request : Flask.request) :
  (is_json request = false -> method <> DELETE ->
   admin_dogs method request = Return (JError "Request must be JSON", 400))
  /\ (forall e, is_json request = true -> body request = Raise e ->
                admin_dogs method request = Return (JError (str_exn e), 500))
  /\ (forall v, is_json request = true -> body request = Ok v ->
                (forall d, v <> VDict d) ->
                admin_dogs method request = Return (JError (no_get v), 500)).
Proof.
  split; [|split].
  - intros Hjson Hm. unfold admin_dogs. rewrite Hjson.
    destruct method; [reflexivity|contradiction|reflexivity].
  - intros e Hjson Hbody. unfold admin_dogs, get_json. rewrite Hjson, Hbody.
    destruct method; reflexivity.
  - intros v Hjson Hbody Hv. unfold admin_dogs, get_json. rewrite Hjson, Hbody.
    destruct v; try (destruct method; reflexivity).
    now destruct (Hv d).
Qed.

Lemma admin_dogs_malformed_witness :
  admin_dogs POST (plain_request [("name", "Rex"); ("price", "5")])
  = Return (JError "Request must be JSON", 400)
  /\ admin_dogs PUT (json_request (VList [VInt 1]))
     = Return (JError "'list' object has no attribute 'get'", 500).
Proof.
  split.
  - refine (proj1 (admin_dogs_malformed POST
                     (plain_request [("name", "Rex"); ("price", "5")])) eq_refl _).
    discriminate.
  - refine (proj2 (proj2 (admin_dogs_malformed PUT
                            (json_request (VList [VInt 1]))))
              (VList [VInt 1]) eq_refl eq_refl _).
    discriminate.
Defined.

(** X17: a POST whose body is a JSON object with truthy name, image, breed
    and price makes one call, the insert of exactly these four fields (every
    other key of the body, [id] included, is left out), and answers 200 with
    what the store returned, or 500 with the message prefixed by "Error
    adding dog: " when the store raises. *)
Theorem admin_dogs_post_outcome
    (store : Store.request -> except (list dict)) (request : Flask.request)
    (d : dict) :
  get_json request = Ok (VDict d) ->
  (forall f, In f required_fields -> truthy (dict_get d f) = true) ->
  map fst (new_row d) = ["name"; "image"; "breed"; "price"]
  /\ calls store (admin_dogs POST request) = [Insert "dogs" (new_row d)]
  /\ run store (admin_dogs POST request)
     = match store (Insert "dogs" (new_row d)) with
       | Ok data => Ok (JMessage "Dog added successfully" data, 200)
       | Raise e => Ok (JError ("Error adding dog: " ++ str_exn e), 500)
       end.
Proof.
  intros Hjson Htruthy. destruct (get_json_ok _ _ Hjson) as (His & _).
  assert (Hall : all (map (dict_get d) required_fields) = true).
  { apply all_true. intros v Hv. apply in_map_iff in Hv as (f & <- & Hf).
    now apply Htruthy. }
  split; [reflexivity|].
  rewrite admin_dogs_post_calls, admin_dogs_post_run, His, Hjson, Hall.
  split; reflexivity.
Qed.

Lemma admin_dogs_post_outcome_witness :
  run (fun _ => Raise (StoreError "duplicate key"))
    (admin_dogs POST
       (json_request (VDict [("id", VInt 9); ("name", VStr "Rex");
                             ("image", VStr "rex.png"); ("breed", VStr "Lab");
                             ("price", VInt 5)])))
  = Ok (JError "Error adding dog: duplicate key", 500).
Proof.
  refine (proj2 (proj2 (admin_dogs_post_outcome
                          (fun _ => Raise (StoreError "duplicate key"))
                          (json_request _)
                          [("id", VInt 9); ("name", VStr "Rex");
                           ("image", VStr "rex.png"); ("breed", VStr "Lab");
                           ("price", VInt 5)]
                          eq_refl _))).
  intros f [<-|[<-|[<-|[<-|[]]]]]; reflexivity.
Defined.

(** X18: [add_dogs] makes one call, the insert of the four fields in the
    table "dogs"; it returns what the store returned, and when the store
    raises it raises an Exception whose message is that of the store behind
    "Error adding dog: ". *)
Theorem add_dogs_outcome (store : Store.request -> except (list dict))
    (name image breed price : value) :
  let row := [("name", name); ("image", image);
              ("breed", breed); ("price", price)] in
  calls store (add_dogs name image breed price) = [Insert "dogs" row]
  /\ run store (add_dogs name image breed price)
     = match store (Insert "dogs" row) with
       | Ok data => Ok data
       | Raise e => Raise (Exception ("Error adding dog: " ++ str_exn e))
       end.
Proof. intros row. split; [apply add_dogs_calls|apply add_dogs_run]. Qed.

(** X19: a PUT does not look at the values it is given: for a body that is a
    JSON object with a truthy id, every entry under name, image, breed or
    price, whatever its value (0, null and the empty string included), is
    part of the one update sent to the store. *)
Theorem admin_dogs_put_unchecked
    (store : Store.request -> except (list dict)) (request : Flask.request)
    (d : dict) (k : string) (v : value) :
  get_json request = Ok (VDict d) ->
  truthy (dict_get d "id") = true ->
  In (k, v) d ->
  In k update_fields ->
  exists data,
    calls store (admin_dogs PUT request)
    = [Update "dogs" data ("id", dict_get d "id")]
    /\ In (k, v) data.
Proof.
  intros Hjson Hid Hin Hk. destruct (get_json_ok _ _ Hjson) as (His & _).
  rewrite admin_dogs_put_calls, His, Hjson, Hid.
  assert (Hdata : In (k, v) (filter (fun kv => str_in (fst kv) update_fields) d)).
  { apply filter_In. split; [exact Hin|]. cbn [fst]. unfold str_in.
    apply existsb_exists. exists k. split; [exact Hk|apply String.eqb_refl]. }
  destruct (filter _ d) as [|kv rest]; [destruct Hdata|].
  eexists. split; [reflexivity|exact Hdata].
Qed.

Lemma admin_dogs_put_unchecked_witness :
  exists data,
    calls (fun _ => Ok [])
      (admin_dogs PUT
         (json_request (VDict [("id", VInt 7); ("price", VInt 0)])))
    = [Update "dogs" data ("id", VInt 7)]
    /\ In ("price", VInt 0) data.
Proof.
  apply (admin_dogs_put_unchecked (fun _ => Ok []) (json_request _)
           [("id", VInt 7); ("price", VInt 0)] "price" (VInt 0) eq_refl eq_refl).
  - right. left. reflexivity.
  - right. right. right. left. reflexivity.
Defined.

(** ** What the aggregator reads *)

Lemma count_dog_reads dog dog' breeds total :
  breed_of dog = breed_of dog' -> price_of dog = price_of dog' ->
  count_dog dog breeds total = count_dog dog' breeds total.
Proof.
  unfold count_dog, breed_of, price_of. now intros -> ->.
Qed.

Lemma count_dogs_reads dogs dogs' :
  Forall2 (fun dog dog' => breed_of dog = breed_of dog'
                           /\ price_of dog = price_of dog') dogs dogs' ->
  forall breeds total,
    count_dogs dogs breeds total = count_dogs dogs' breeds total.
Proof.
  induction 1 as [|dog dog' rest rest' [Hb Hp] _ IH]; intros b t;
    [reflexivity|].
  cbn [count_dogs]. rewrite (count_dog_reads _ _ _ _ Hb Hp).
  destruct (count_dog dog' b t) as [[b1 t1]|e]; cbn [bind]; [apply IH|reflexivity].
Qed.

(** X20: the statistics depend on the records only through the breed and the
    price of each: two record sequences that agree, record by record, on the
    breed (missing read as null) and on the price (missing read as 0) get
    the same outcome, whatever their ids, names, images and other keys. *)
Theorem stats_reads_breed_and_price (dogs dogs' : list dict) :
  Forall2 (fun dog dog' => breed_of dog = breed_of dog'
                           /\ price_of dog = price_of dog') dogs dogs' ->
  stats dogs = stats dogs'.
Proof.
  intros H. pose proof (Forall2_length H) as Hlen.
  destruct H as [|dog dog' rest rest' Hd Hrest]; [reflexivity|].
  assert (Hall : Forall2 (fun dog dog' => breed_of dog = breed_of dog'
                                          /\ price_of dog = price_of dog')
                   (dog :: rest) (dog' :: rest')) by now constructor.
  unfold stats, general_stats.
  rewrite (count_dogs_reads _ _ Hall). unfold len. now rewrite Hlen.
Qed.

Lemma stats_reads_breed_and_price_witness :
  stats [Kennel.null_breed; Kennel.lab]
  = stats [[("price", VInt 7); ("name", VStr "Rex")];
           [("breed", VStr "Lab"); ("price", VInt 5)]].
Proof.
  apply (stats_reads_breed_and_price [Kennel.null_breed; Kennel.lab]).
  repeat constructor.
Defined.
